(** * BiblioDrift: the mood-analysis backend

    A shallow embedding of [ai_service.py] and [app.py] and the
    verification of their specification.

    Conventions of the embedding.

    - A Python [str] is a [string]: one [ascii] per character, read as the
      code point of that number (U+0000 .. U+00FF).  [len] is [String.length]
      and [str.lower] is the Unicode lower-casing of that range.  Beyond it
      lower-casing may change the length of a text; nothing below relies on
      the length being kept.
    - A value that travels through a JSON body is a [value]; Python decides
      by its run-time type whether [len], [.lower()] or [.get] applies, and
      raises otherwise.  JSON numbers are the integers.
    - The optional [mood_analysis] package is not part of these two files.
      It is an [Analyzer]: three callables that answer, or raise, from the
      arguments and from the state of the outside world, which they may
      change.
    - A Python function is a computation [M A]: from the state of the
      process and of the outside world to an outcome, returned or raised,
      and the state afterwards. *)

From Stdlib Require Import String Ascii List Bool Arith NArith ZArith Lia.
Import ListNotations.
Open Scope string_scope.

#[local] Set Warnings "-register-all".

(** ** Python values and exceptions *)

Inductive value : Type :=
| VNone
| VBool (b : bool)
| VInt (z : Z)
| VStr (s : string)
| VList (items : list value)
| VDict (entries : list (string * value)).

(** [type(v).__name__] *)
Definition type_name (v : value) : string :=
  match v with
  | VNone => "NoneType"
  | VBool _ => "bool"
  | VInt _ => "int"
  | VStr _ => "str"
  | VList _ => "list"
  | VDict _ => "dict"
  end.

(** The truth value Python gives [v] in [if v], [not v] and [a and b]. *)
Definition truthy (v : value) : bool :=
  match v with
  | VNone => false
  | VBool b => b
  | VInt z => negb (z =? 0)%Z
  | VStr s => negb (s =? "")
  | VList items => match items with [] => false | _ :: _ => true end
  | VDict entries => match entries with [] => false | _ :: _ => true end
  end.

(** An exception: its class and the text [str(e)] gives. *)
Record exn : Type := Exn { exn_class : string; exn_str : string }.

Inductive result (A : Type) : Type :=
| Ok (a : A)
| Raised (e : exn).
Arguments Ok {A} a.
Arguments Raised {A} e.

Definition AttributeError (v : value) (attr : string) : exn :=
  Exn "AttributeError"
      ("'" ++ type_name v ++ "' object has no attribute '" ++ attr ++ "'").

Definition TypeError_len (v : value) : exn :=
  Exn "TypeError" ("object of type '" ++ type_name v ++ "' has no len()").

(** ** Strings *)

(** [str.lower] on one character of U+0000 .. U+00FF: the capital letters
    A-Z and the capital letters of U+00C0 .. U+00DE, the multiplication sign
    U+00D7 apart, move up by 32. *)
Definition lower_char (c : ascii) : ascii :=
  let n := N_of_ascii c in
  if ((65 <=? n) && (n <=? 90) ||
      (192 <=? n) && (n <=? 222) && negb (n =? 215))%N
  then ascii_of_N (n + 32)
  else c.

Fixpoint lower (s : string) : string :=
  match s with
  | EmptyString => EmptyString
  | String c rest => String (lower_char c) (lower rest)
  end.

(** [needle in hay] on two strings. *)
Fixpoint str_in (needle hay : string) : bool :=
  match hay with
  | EmptyString => String.prefix needle hay
  | String _ rest => String.prefix needle hay || str_in needle rest
  end.

(** ** The process and the outside world *)

(** One call of the optional analyzer, with its arguments. *)
Inductive call : Type :=
| Call_generate_enhanced_book_note (description title author : value)
| Call_get_book_mood_tags (title author : value)
| Call_analyze_book_mood (title author : value).

(** The state a computation runs in: the outside world [ext] the analyzer
    reads and writes, the lines printed so far, and the analyzer calls made
    so far, both oldest first. *)
Record World (Ext : Type) : Type := mkWorld {
  ext : Ext;
  stdout : list string;
  calls : list call
}.
Arguments mkWorld {Ext} ext stdout calls.
Arguments ext {Ext} w.
Arguments stdout {Ext} w.
Arguments calls {Ext} w.

(** [mood_analysis.ai_service_enhanced], as far as the two files use it. *)
Record Analyzer (Ext : Type) : Type := mkAnalyzer {
  enhanced_generate_enhanced_book_note :
    value -> value -> value -> Ext -> result string * Ext;
  enhanced_get_book_mood_tags :
    value -> value -> Ext -> result (list string) * Ext;
  enhanced_analyze_book_mood :
    value -> value -> Ext -> result value * Ext
}.
Arguments mkAnalyzer {Ext} _ _ _.
Arguments enhanced_generate_enhanced_book_note {Ext} a _ _ _ _.
Arguments enhanced_get_book_mood_tags {Ext} a _ _ _.
Arguments enhanced_analyze_book_mood {Ext} a _ _ _.

Definition M (Ext A : Type) : Type := World Ext -> result A * World Ext.

Definition ret {Ext A} (a : A) : M Ext A := fun w => (Ok a, w).

Definition raise {Ext A} (e : exn) : M Ext A := fun w => (Raised e, w).

Definition bind {Ext A B} (m : M Ext A) (k : A -> M Ext B) : M Ext B :=
  fun w =>
    match m w with
    | (Ok a, w') => k a w'
    | (Raised e, w') => (Raised e, w')
    end.

(** [try: m  except Exception as e: handler e] *)
Definition try_except {Ext A} (m : M Ext A) (handler : exn -> M Ext A)
  : M Ext A :=
  fun w =>
    match m w with
    | (Ok a, w') => (Ok a, w')
    | (Raised e, w') => handler e w'
    end.

Notation "x <- m ;; k" := (bind m (fun x => k))
  (at level 61, m at next level, right associativity).
Notation "m ;;; k" := (bind m (fun _ => k))
  (at level 61, right associativity).

Definition print {Ext} (line : string) : M Ext unit :=
  fun w => (Ok tt, mkWorld (ext w) (stdout w ++ [line]) (calls w)).

(** Running one analyzer callable: the call is recorded and the world moves
    to where the analyzer leaves it. *)
Definition external {Ext A} (c : call) (f : Ext -> result A * Ext)
  : M Ext A :=
  fun w =>
    let (r, x) := f (ext w) in
    (r, mkWorld x (stdout w) (calls w ++ [c])).

(** ** Python operations that depend on the run-time type *)

(** [len(v)] *)
Definition py_len {Ext} (v : value) : M Ext nat :=
  match v with
  | VStr s => ret (String.length s)
  | VList items => ret (List.length items)
  | VDict entries => ret (List.length entries)
  | _ => raise (TypeError_len v)
  end.

(** [v.lower()] *)
Definition py_lower {Ext} (v : value) : M Ext string :=
  match v with
  | VStr s => ret (lower s)
  | _ => raise (AttributeError v "lower")
  end.

(** [needle in v.lower()] *)
Definition in_lower {Ext} (needle : string) (v : value) : M Ext bool :=
  low <- py_lower v ;; ret (str_in needle low).

Fixpoint lookup (key : string) (entries : list (string * value))
  : option value :=
  match entries with
  | [] => None
  | (k, v) :: rest => if k =? key then Some v else lookup key rest
  end.

(** [entries.get(key, default)] on the entries of a dict. *)
Definition entry (key : string) (entries : list (string * value))
    (default : value) : value :=
  match lookup key entries with
  | Some v => v
  | None => default
  end.

(** [data.get(key, default)] *)
Definition dict_get {Ext} (data : value) (key : string) (default : value)
  : M Ext value :=
  match data with
  | VDict entries => ret (entry key entries default)
  | _ => raise (AttributeError data "get")
  end.

(** ** ai_service.py *)

Module ai_service.
Section Service.
Context {Ext : Type}.

(** [MOOD_ANALYSIS_AVAILABLE] of this module: whether the three names
    could be imported from the analyzer package. *)
Variable MOOD_ANALYSIS_AVAILABLE : bool.
Variable enhanced : Analyzer Ext.

Definition generate_enhanced_book_note (description title author : value)
  : M Ext string :=
  external (Call_generate_enhanced_book_note description title author)
           (enhanced_generate_enhanced_book_note enhanced
              description title author).

Definition get_book_mood_tags (title author : value)
  : M Ext (list string) :=
  external (Call_get_book_mood_tags title author)
           (enhanced_get_book_mood_tags enhanced title author).

(** Lines 23-32: the description-based analysis. *)
Definition description_based (description : value) : M Ext string :=
  n <- py_len description ;;
  if (200 <? n)%nat then
    ret "A deep, complex narrative that readers find emotionally resonant."
  else if (100 <? n)%nat then
    ret "A compelling story with layers waiting to be discovered."
  else
    mystery <- in_lower "mystery" description ;;
    if mystery then
      ret "A mysterious tale that will keep you guessing."
    else
      romance <- in_lower "romance" description ;;
      if romance then
        ret "A heartwarming story perfect for cozy reading."
      else
        ret "A delightful read for any quiet moment.".

Definition generate_book_note (description title author : value)
  : M Ext string :=
  if MOOD_ANALYSIS_AVAILABLE && truthy title && truthy author then
    try_except
      (generate_enhanced_book_note description title author)
      (fun e =>
         print ("Mood analysis failed, using fallback: " ++ exn_str e) ;;;
         description_based description)
  else
    description_based description.

Definition mood_queries : list (string * string) :=
  [ ("cozy", "comfort reads warm atmosphere");
    ("dark", "psychological thriller mystery");
    ("romantic", "romance love story");
    ("mysterious", "mystery suspense thriller");
    ("uplifting", "inspiring hopeful positive");
    ("melancholy", "literary fiction emotional");
    ("adventurous", "adventure fantasy epic") ].

(** Lines 50-52: the loop over the items of a table, in their order. *)
Fixpoint first_mood (table : list (string * string)) (query_lower : string)
  : option string :=
  match table with
  | [] => None
  | (mood, book_query) :: rest =>
      if str_in mood query_lower then
        Some ("AI-optimized " ++ mood ++ " results: " ++ book_query)
      else first_mood rest query_lower
  end.

(** [query.lower()] is the first use of [query]: anything but a string
    raises there.  [f"{query}"] of a string is the string. *)
Definition get_ai_recommendations (query : value) : M Ext string :=
  match query with
  | VStr q =>
      let query_lower := lower q in
      match first_mood mood_queries query_lower with
      | Some answer => ret answer
      | None => ret ("AI-optimized results for: " ++ q)
      end
  | _ => raise (AttributeError query "lower")
  end.

Definition get_book_mood_tags_safe (title author : value)
  : M Ext (list string) :=
  if MOOD_ANALYSIS_AVAILABLE then
    try_except
      (get_book_mood_tags title author)
      (fun e =>
         print ("Error getting mood tags: " ++ exn_str e) ;;;
         ret [])
  else
    ret [].

End Service.
End ai_service.

(** ** app.py *)

Record Response : Type := mkResponse {
  body : value;
  status : nat
}.

(** [jsonify(obj)] alone answers with status 200; [jsonify(obj), code]
    answers with [code]. *)
Definition jsonify (obj : list (string * value)) : Response :=
  mkResponse (VDict obj) 200.

Definition jsonify_status (obj : list (string * value)) (code : nat)
  : Response :=
  mkResponse (VDict obj) code.

Definition tags_value (tags : list string) : value :=
  VList (map VStr tags).

Module app.
Section App.
Context {Ext : Type}.

(** [MOOD_ANALYSIS_AVAILABLE] of this module: whether [AIBookService]
    could be imported. *)
Variable MOOD_ANALYSIS_AVAILABLE : bool.
(** [ai_service.MOOD_ANALYSIS_AVAILABLE], behind the three imported
    functions. *)
Variable ai_service_MOOD_ANALYSIS_AVAILABLE : bool.
Variable enhanced : Analyzer Ext.

Definition generate_book_note :=
  ai_service.generate_book_note ai_service_MOOD_ANALYSIS_AVAILABLE enhanced.
Definition get_ai_recommendations :=
  @ai_service.get_ai_recommendations Ext.
Definition get_book_mood_tags_safe :=
  ai_service.get_book_mood_tags_safe
    ai_service_MOOD_ANALYSIS_AVAILABLE enhanced.

(** [ai_service.analyze_book_mood], on the instance made at start-up. *)
Definition analyze_book_mood (title author : value) : M Ext value :=
  external (Call_analyze_book_mood title author)
           (enhanced_analyze_book_mood enhanced title author).

(** Each handler takes [data], the value of [request.json]. *)

Definition handle_generate_note (data : value) : M Ext Response :=
  description <- dict_get data "description" (VStr "") ;;
  title <- dict_get data "title" (VStr "") ;;
  author <- dict_get data "author" (VStr "") ;;
  vibe <- generate_book_note description title author ;;
  ret (jsonify [("vibe", VStr vibe)]).

Definition handle_analyze_mood (data : value) : M Ext Response :=
  if negb MOOD_ANALYSIS_AVAILABLE then
    ret (jsonify_status
           [("success", VBool false);
            ("error",
             VStr "Mood analysis not available - missing dependencies")]
           503)
  else
    title <- dict_get data "title" (VStr "") ;;
    author <- dict_get data "author" (VStr "") ;;
    if negb (truthy title) then
      ret (jsonify_status [("error", VStr "Title is required")] 400)
    else
      try_except
        (mood_analysis <- analyze_book_mood title author ;;
         if truthy mood_analysis then
           ret (jsonify [("success", VBool true);
                         ("mood_analysis", mood_analysis)])
         else
           ret (jsonify_status
                  [("success", VBool false);
                   ("error", VStr "Could not analyze mood for this book")]
                  404))
        (fun e =>
           ret (jsonify_status
                  [("success", VBool false); ("error", VStr (exn_str e))]
                  500)).

Definition handle_mood_tags (data : value) : M Ext Response :=
  title <- dict_get data "title" (VStr "") ;;
  author <- dict_get data "author" (VStr "") ;;
  if negb (truthy title) then
    ret (jsonify_status [("error", VStr "Title is required")] 400)
  else
    try_except
      (mood_tags <- get_book_mood_tags_safe title author ;;
       ret (jsonify [("success", VBool true);
                     ("mood_tags", tags_value mood_tags)]))
      (fun e =>
         ret (jsonify_status
                [("success", VBool false); ("error", VStr (exn_str e))]
                500)).

Definition handle_mood_search (data : value) : M Ext Response :=
  mood_query <- dict_get data "query" (VStr "") ;;
  if negb (truthy mood_query) then
    ret (jsonify_status [("error", VStr "Query is required")] 400)
  else
    try_except
      (recommendations <- get_ai_recommendations mood_query ;;
       ret (jsonify [("success", VBool true);
                     ("recommendations", VStr recommendations);
                     ("query", mood_query)]))
      (fun e =>
         ret (jsonify_status
                [("success", VBool false); ("error", VStr (exn_str e))]
                500)).

Definition health_check : M Ext Response :=
  ret (jsonify [("status", VStr "healthy");
                ("service", VStr "BiblioDrift Mood Analysis API");
                ("version", VStr "1.0.0");
                ("mood_analysis_available", VBool MOOD_ANALYSIS_AVAILABLE)]).

(** The routes [@app.route] declares. *)
Inductive route : Type :=
| POST_generate_note
| POST_analyze_mood
| POST_mood_tags
| POST_mood_search
| GET_health.

Definition handler (r : route) (data : value) : M Ext Response :=
  match r with
  | POST_generate_note => handle_generate_note data
  | POST_analyze_mood => handle_analyze_mood data
  | POST_mood_tags => handle_mood_tags data
  | POST_mood_search => handle_mood_search data
  | GET_health => health_check
  end.

End App.
End app.

(** ** What the claims speak of *)

(** [needle] occurs in [hay] as a substring. *)
Definition occurs_in (needle hay : string) : Prop :=
  exists before after, hay = before ++ needle ++ after.

(** The error envelope [{success: false, error: message}]. *)
Definition error_envelope (message : string) : value :=
  VDict [("success", VBool false); ("error", VStr message)].

(** The field [key] of a JSON object. *)
Definition field (key : string) (v : value) : option value :=
  match v with
  | VDict entries => lookup key entries
  | _ => None
  end.

(** ** Sample analyzers and requests *)

(** An analyzer that answers the same every time. *)
Definition steady : Analyzer unit :=
  mkAnalyzer
    (fun _ _ _ x => (Ok "A haunting, slow-burning read.", x))
    (fun _ _ x => (Ok ["haunting"; "slow-burning"], x))
    (fun _ _ x => (Ok (VDict [("primary_mood", VStr "haunting")]), x)).

(** An analyzer with nothing to say: every call raises, and no analysis is
    ever found. *)
Definition broken : Analyzer unit :=
  mkAnalyzer
    (fun _ _ _ x => (Raised (Exn "ConnectionError" "reviews unreachable"), x))
    (fun _ _ x => (Raised (Exn "ConnectionError" "reviews unreachable"), x))
    (fun _ _ x => (Ok VNone, x)).

(** An analyzer whose note follows the reviews it has read: the outside
    world counts the calls. *)
Definition drifting : Analyzer nat :=
  mkAnalyzer
    (fun _ _ _ x =>
       (Ok (if (x =? 0)%nat then "A quiet, hopeful read."
            else "A bleak, divisive read."), S x))
    (fun _ _ x => (Ok [], S x))
    (fun _ _ x => (Ok VNone, S x)).

Definition start {Ext} (x : Ext) : World Ext := mkWorld x [] [].

(** 227 characters. *)
Definition long_description : string :=
  "In the last winter of the war a lighthouse keeper finds a sealed trunk washed up below the lamp, and the letters inside it draw her, one reluctant page after another, into the life of the stranger who wrote them decades before.".

Definition dune_request : value :=
  VDict [("title", VStr "Dune"); ("author", VStr "Frank Herbert")].

(** ** Strings: substrings and lower-casing *)

Lemma prefix_split (p s : string) :
  String.prefix p s = true <-> exists rest, s = p ++ rest.
Proof.
  revert s; induction p as [|a p IH]; intros s.
  - destruct s; simpl; split; eauto.
  - destruct s as [|b s]; simpl.
    + split; [discriminate | intros [rest E]; discriminate E].
    + destruct (ascii_dec a b) as [Hab|Hab].
      * subst b. split.
        -- intros H. apply IH in H. destruct H as [rest E].
           exists rest. now rewrite E.
        -- intros [rest E]. apply IH. exists rest. now injection E.
      * split; [discriminate | intros [rest E]].
        injection E as E1 _. now elim Hab.
Qed.

Lemma str_in_occurs (needle hay : string) :
  str_in needle hay = true <-> occurs_in needle hay.
Proof.
  unfold occurs_in. induction hay as [|c hay IH].
  - cbn [str_in]. rewrite prefix_split. split.
    + intros [rest E]. exists "", rest. exact E.
    + intros [before [after E]]. destruct before; [eauto | discriminate E].
  - cbn [str_in]. rewrite orb_true_iff, prefix_split, IH. split.
    + intros [[rest E] | [before [after E]]].
      * exists "", rest. exact E.
      * exists (String c before), after. simpl. now rewrite E.
    + intros [before [after E]]. destruct before as [|b before].
      * left. exists after. exact E.
      * right. exists before, after. simpl in E. now injection E.
Qed.

Lemma str_in_absent (needle hay : string) :
  str_in needle hay = false <-> ~ occurs_in needle hay.
Proof.
  rewrite <- str_in_occurs. destruct (str_in needle hay); split; intros H.
  - discriminate H.
  - now elim H.
  - discriminate.
  - reflexivity.
Qed.

Lemma truthy_str (s : string) : truthy (VStr s) = true <-> s <> "".
Proof.
  simpl. rewrite negb_true_iff. apply String.eqb_neq.
Qed.

(** ** Running computations *)

Ltac run :=
  unfold bind, try_except, ret, raise, print, external in *; cbn beta iota.

Lemma description_based_str {Ext} (description : string) (w : World Ext) :
  ai_service.description_based (VStr description) w =
  (Ok (if (200 <? String.length description)%nat then
         "A deep, complex narrative that readers find emotionally resonant."
       else if (100 <? String.length description)%nat then
         "A compelling story with layers waiting to be discovered."
       else if str_in "mystery" (lower description) then
         "A mysterious tale that will keep you guessing."
       else if str_in "romance" (lower description) then
         "A heartwarming story perfect for cozy reading."
       else "A delightful read for any quiet moment."), w).
Proof.
  unfold ai_service.description_based, in_lower, py_len, py_lower. run.
  destruct (200 <? String.length description)%nat; [reflexivity|].
  destruct (100 <? String.length description)%nat; [reflexivity|].
  destruct (str_in "mystery" (lower description)); [reflexivity|].
  destruct (str_in "romance" (lower description)); reflexivity.
Qed.

Lemma not_consulted (avail : bool) (title author : value) :
  avail = false \/ truthy title = false \/ truthy author = false ->
  avail && truthy title && truthy author = false.
Proof.
  intros [-> | [-> | ->]]; [reflexivity | |];
    destruct avail; try destruct (truthy title); reflexivity.
Qed.

(** ** The note generator *)

(** C1.  When the analyzer is unavailable, or the title or the author is
    empty, [generate_book_note] on a description string returns the first
    matching phrase of the ordered local heuristic - longer than 200
    characters, longer than 100, containing "mystery" in lower case,
    containing "romance" in lower case, the default - and changes nothing;
    in particular every description longer than 200 characters gets the
    "deep, complex narrative" phrase. *)
Theorem C1_local_heuristic {Ext} (avail : bool) (enhanced : Analyzer Ext)
    (description : string) (title author : value) (w : World Ext) :
  avail = false \/ truthy title = false \/ truthy author = false ->
  ai_service.generate_book_note avail enhanced (VStr description) title author w
  = (Ok (if (200 <? String.length description)%nat then
           "A deep, complex narrative that readers find emotionally resonant."
         else if (100 <? String.length description)%nat then
           "A compelling story with layers waiting to be discovered."
         else if str_in "mystery" (lower description) then
           "A mysterious tale that will keep you guessing."
         else if str_in "romance" (lower description) then
           "A heartwarming story perfect for cozy reading."
         else "A delightful read for any quiet moment."), w)
  /\ (200 < String.length description ->
      ai_service.generate_book_note avail enhanced
        (VStr description) title author w
      = (Ok "A deep, complex narrative that readers find emotionally resonant.",
         w)).
Proof.
  intros H. unfold ai_service.generate_book_note.
  rewrite (not_consulted _ _ _ H), description_based_str.
  split; [reflexivity|].
  intros Hlen. apply Nat.ltb_lt in Hlen. now rewrite Hlen.
Qed.

Lemma C1_witness :
  (true = false \/ truthy (VStr "") = false \/ truthy (VStr "Anon") = false)
  /\ 200 < String.length long_description
  /\ ai_service.generate_book_note true steady
       (VStr long_description) (VStr "") (VStr "Anon") (start tt)
     = (Ok "A deep, complex narrative that readers find emotionally resonant.",
        start tt).
Proof.
  assert (H : true = false \/ truthy (VStr "") = false
              \/ truthy (VStr "Anon") = false) by (right; left; reflexivity).
  assert (L : 200 < String.length long_description)
    by (apply Nat.ltb_lt; vm_compute; reflexivity).
  split; [exact H|]. split; [exact L|].
  exact (proj2 (C1_local_heuristic true steady long_description
                  (VStr "") (VStr "Anon") (start tt) H) L).
Defined.

(** ** The mood query mapper *)

Lemma first_mood_none (table : list (string * string)) (query_lower : string) :
  (forall mood expansion,
      In (mood, expansion) table -> ~ occurs_in mood query_lower) ->
  ai_service.first_mood table query_lower = None.
Proof.
  induction table as [|[mood expansion] table IH]; intros H; simpl.
  - reflexivity.
  - assert (E : str_in mood query_lower = false).
    { apply str_in_absent. apply (H mood expansion). now left. }
    rewrite E. apply IH. intros m e Hin. apply (H m e). now right.
Qed.

Lemma first_mood_first (before after : list (string * string))
    (mood expansion query_lower : string) :
  (forall m e, In (m, e) before -> ~ occurs_in m query_lower) ->
  occurs_in mood query_lower ->
  ai_service.first_mood (before ++ (mood, expansion) :: after)%list query_lower
  = Some ("AI-optimized " ++ mood ++ " results: " ++ expansion).
Proof.
  induction before as [|[m e] before IH]; intros Hbefore Hmood.
  - cbn [app ai_service.first_mood].
    apply str_in_occurs in Hmood. now rewrite Hmood.
  - cbn [app ai_service.first_mood].
    assert (E : str_in m query_lower = false).
    { apply str_in_absent. apply (Hbefore m e). now left. }
    rewrite E. apply IH; [|exact Hmood].
    intros m' e' Hin. apply (Hbefore m' e'). now right.
Qed.

(** Every answer of the table scan is one of the seven of the table. *)
Lemma first_mood_answers (table : list (string * string))
    (query_lower answer : string) :
  ai_service.first_mood table query_lower = Some answer ->
  exists mood expansion,
    In (mood, expansion) table /\ occurs_in mood query_lower /\
    answer = "AI-optimized " ++ mood ++ " results: " ++ expansion.
Proof.
  induction table as [|[mood expansion] table IH]; simpl.
  - discriminate.
  - destruct (str_in mood query_lower) eqn:E.
    + intros [= <-]. exists mood, expansion.
      split; [now left|]. split; [now apply str_in_occurs | reflexivity].
    + intros H. destruct (IH H) as [m [e [Hin [Hocc Heq]]]].
      exists m, e. split; [now right|]. now split.
Qed.

(** C2.  [get_ai_recommendations] scans a table of exactly seven mood
    keywords in the declared order; with the first keyword that occurs in
    the lower-cased query it answers "AI-optimized {mood} results:
    {expansion}", and when none occurs it answers "AI-optimized results
    for: " followed by the query as it was given.  The two sample queries
    of the specification get the answers it lists. *)
Theorem C2_mood_query_mapper {Ext} (query : string) (w : World Ext) :
  map fst ai_service.mood_queries
  = ["cozy"; "dark"; "romantic"; "mysterious"; "uplifting"; "melancholy";
     "adventurous"]
  /\ (forall before mood expansion after,
         ai_service.mood_queries = (before ++ (mood, expansion) :: after)%list ->
         (forall m e, In (m, e) before -> ~ occurs_in m (lower query)) ->
         occurs_in mood (lower query) ->
         ai_service.get_ai_recommendations (VStr query) w
         = (Ok ("AI-optimized " ++ mood ++ " results: " ++ expansion), w))
  /\ ((forall m e,
          In (m, e) ai_service.mood_queries -> ~ occurs_in m (lower query)) ->
      ai_service.get_ai_recommendations (VStr query) w
      = (Ok ("AI-optimized results for: " ++ query), w))
  /\ ai_service.get_ai_recommendations
       (VStr "I want something dark and brooding") w
     = (Ok "AI-optimized dark results: psychological thriller mystery", w)
  /\ ai_service.get_ai_recommendations (VStr "tell me something") w
     = (Ok "AI-optimized results for: tell me something", w).
Proof.
  repeat split.
  - intros before mood expansion after Htable Hbefore Hmood.
    unfold ai_service.get_ai_recommendations. cbn zeta.
    rewrite Htable, (first_mood_first _ _ _ _ _ Hbefore Hmood).
    reflexivity.
  - intros Hnone. unfold ai_service.get_ai_recommendations. cbn zeta.
    now rewrite (first_mood_none _ _ Hnone).
Qed.

Lemma C2_witness :
  ai_service.mood_queries
  = ([("cozy", "comfort reads warm atmosphere")]
       ++ ("dark", "psychological thriller mystery")
       :: [("romantic", "romance love story");
           ("mysterious", "mystery suspense thriller");
           ("uplifting", "inspiring hopeful positive");
           ("melancholy", "literary fiction emotional");
           ("adventurous", "adventure fantasy epic")])%list
  /\ (forall m e,
         In (m, e) [("cozy", "comfort reads warm atmosphere")] ->
         ~ occurs_in m (lower "A DARK and romantic tale"))
  /\ occurs_in "dark" (lower "A DARK and romantic tale")
  /\ ai_service.get_ai_recommendations (VStr "A DARK and romantic tale")
       (start tt)
     = (Ok "AI-optimized dark results: psychological thriller mystery",
        start tt).
Proof.
  assert (T : ai_service.mood_queries
              = ([("cozy", "comfort reads warm atmosphere")]
                   ++ ("dark", "psychological thriller mystery")
                   :: [("romantic", "romance love story");
                       ("mysterious", "mystery suspense thriller");
                       ("uplifting", "inspiring hopeful positive");
                       ("melancholy", "literary fiction emotional");
                       ("adventurous", "adventure fantasy epic")])%list)
    by reflexivity.
  assert (B : forall m e,
             In (m, e) [("cozy", "comfort reads warm atmosphere")] ->
             ~ occurs_in m (lower "A DARK and romantic tale")).
  { intros m e [[= <- <-] | []]. apply str_in_absent. reflexivity. }
  assert (D : occurs_in "dark" (lower "A DARK and romantic tale"))
    by (apply str_in_occurs; reflexivity).
  split; [exact T|]. split; [exact B|]. split; [exact D|].
  exact (proj1 (proj2 (C2_mood_query_mapper "A DARK and romantic tale"
                         (start tt)))
           _ _ _ _ T B D).
Defined.

(** C10.  Whatever the query string, the answer of
    [get_ai_recommendations] begins with "AI-optimized ". *)
Theorem C10_answer_prefix {Ext} (query : string) (w : World Ext) :
  exists rest,
    ai_service.get_ai_recommendations (VStr query) w
    = (Ok ("AI-optimized " ++ rest), w).
Proof.
  unfold ai_service.get_ai_recommendations. cbn zeta.
  destruct (ai_service.first_mood ai_service.mood_queries (lower query))
    as [answer|] eqn:E.
  - destruct (first_mood_answers _ _ _ E) as [mood [expansion [_ [_ ->]]]].
    exists (mood ++ " results: " ++ expansion). reflexivity.
  - exists ("results for: " ++ query). reflexivity.
Qed.

(** ** The analyzer behind the note generator *)


Lemma description_based_pure {Ext1 Ext2} (description : value)
    (w1 : World Ext1) (w2 : World Ext2) :
  fst (ai_service.description_based description w1)
  = fst (ai_service.description_based description w2)
  /\ snd (ai_service.description_based description w1) = w1.
Proof.
  destruct description;
    try (now rewrite !description_based_str);
    unfold ai_service.description_based, in_lower, py_len, py_lower; run;
    try (split; reflexivity);
    repeat match goal with
           | |- context [if ?b then _ else _] => destruct b
           end; split; reflexivity.
Qed.




(** ** Determinism *)

Lemma get_ai_recommendations_pure {Ext1 Ext2} (query : value)
    (w1 : World Ext1) (w2 : World Ext2) :
  fst (ai_service.get_ai_recommendations query w1)
  = fst (ai_service.get_ai_recommendations query w2)
  /\ snd (ai_service.get_ai_recommendations query w1) = w1.
Proof.
  unfold ai_service.get_ai_recommendations.
  destruct query; run; try (split; reflexivity).
  cbn zeta.
  destruct (ai_service.first_mood ai_service.mood_queries (lower s));
    split; reflexivity.
Qed.

(** C7, as the code has it.  [get_ai_recommendations] is a pure function of
    its query: two calls with the same query return the same, in whatever
    state they are made, and leave that state as it was.
    [generate_book_note] is so whenever the analyzer is not consulted
    (unavailable, or title or author empty).  When the analyzer is
    consulted the note is the analyzer's answer, or the local heuristic's
    if it raised: two calls with equal arguments return the same whenever
    the analyzer answers the two alike. *)
Theorem C7_deterministic_up_to_analyzer {Ext} (avail : bool)
    (enhanced : Analyzer Ext) (query description title author : value)
    (w1 w2 : World Ext) :
  let note := ai_service.generate_book_note avail enhanced
                description title author in
  let answer := enhanced_generate_enhanced_book_note enhanced
                  description title author in
  (fst (ai_service.get_ai_recommendations query w1)
   = fst (ai_service.get_ai_recommendations query w2)
   /\ snd (ai_service.get_ai_recommendations query w1) = w1)
  /\ (avail = false \/ truthy title = false \/ truthy author = false ->
      fst (note w1) = fst (note w2) /\ snd (note w1) = w1)
  /\ (fst (answer (ext w1)) = fst (answer (ext w2)) ->
      fst (note w1) = fst (note w2)).
Proof.
  cbn zeta. split; [apply get_ai_recommendations_pure | split].
  - intros H. unfold ai_service.generate_book_note.
    rewrite (not_consulted _ _ _ H). apply description_based_pure.
  - intros H. unfold ai_service.generate_book_note.
    destruct (avail && truthy title && truthy author).
    + unfold ai_service.generate_enhanced_book_note. run.
      destruct (enhanced_generate_enhanced_book_note enhanced description
                  title author (ext w1)) as [[text1|e1] x1];
        destruct (enhanced_generate_enhanced_book_note enhanced description
                    title author (ext w2)) as [[text2|e2] x2];
        cbn [fst] in H; try discriminate H.
      * cbn [fst]. exact H.
      * apply description_based_pure.
    + apply description_based_pure.
Qed.

Lemma C7_witness :
  fst (enhanced_generate_enhanced_book_note steady
         (VStr "A mystery") (VStr "Dune") (VStr "Frank Herbert")
         (ext (start tt)))
  = fst (enhanced_generate_enhanced_book_note steady
           (VStr "A mystery") (VStr "Dune") (VStr "Frank Herbert")
           (ext (mkWorld tt ["an earlier line"] [])))
  /\ fst (ai_service.generate_book_note true steady
            (VStr "A mystery") (VStr "Dune") (VStr "Frank Herbert")
            (start tt))
     = fst (ai_service.generate_book_note true steady
              (VStr "A mystery") (VStr "Dune") (VStr "Frank Herbert")
              (mkWorld tt ["an earlier line"] [])).
Proof.
  split; [reflexivity|].
  exact (proj2 (proj2 (C7_deterministic_up_to_analyzer true steady
                         (VStr "cozy") (VStr "A mystery") (VStr "Dune")
                         (VStr "Frank Herbert") (start tt)
                         (mkWorld tt ["an earlier line"] [])))
           eq_refl).
Defined.

(** C7, as the claim has it, fails: with the analyzer available both times
    and the same three arguments, two calls in a row return different
    notes when the analyzer's answer has moved in between. *)
Lemma C7_counterexample :
  fst (ai_service.generate_book_note true drifting
         (VStr "A mystery") (VStr "Dune") (VStr "Frank Herbert") (start 0))
  <> fst (ai_service.generate_book_note true drifting
            (VStr "A mystery") (VStr "Dune") (VStr "Frank Herbert")
            (snd (ai_service.generate_book_note true drifting
                    (VStr "A mystery") (VStr "Dune") (VStr "Frank Herbert")
                    (start 0)))).
Proof.
  vm_compute. discriminate.
Qed.

(** ** Mood tags *)

Lemma get_book_mood_tags_safe_run {Ext} (avail : bool)
    (enhanced : Analyzer Ext) (title author : value) (w : World Ext) :
  ai_service.get_book_mood_tags_safe avail enhanced title author w
  = if avail then
      match enhanced_get_book_mood_tags enhanced title author (ext w) with
      | (Ok tags, x) =>
          (Ok tags,
           mkWorld x (stdout w)
             (calls w ++ [Call_get_book_mood_tags title author])%list)
      | (Raised e, x) =>
          (Ok [],
           mkWorld x
             (stdout w
                ++ [("Error getting mood tags: " ++ exn_str e)%string])%list
             (calls w ++ [Call_get_book_mood_tags title author])%list)
      end
    else (Ok [], w).
Proof.
  unfold ai_service.get_book_mood_tags_safe, ai_service.get_book_mood_tags.
  destruct avail; run; [|reflexivity].
  now destruct (enhanced_get_book_mood_tags enhanced title author (ext w))
    as [[tags|e] x].
Qed.

Lemma handle_mood_tags_run {Ext} (avail : bool) (enhanced : Analyzer Ext)
    (entries : list (string * value)) (w : World Ext) :
  app.handle_mood_tags avail enhanced (VDict entries) w
  = if truthy (entry "title" entries (VStr "")) then
      match ai_service.get_book_mood_tags_safe avail enhanced
              (entry "title" entries (VStr ""))
              (entry "author" entries (VStr "")) w with
      | (Ok tags, w') =>
          (Ok (mkResponse
                 (VDict [("success", VBool true);
                         ("mood_tags", VList (map VStr tags))]) 200), w')
      | (Raised e, w') =>
          (Ok (mkResponse (error_envelope (exn_str e)) 500), w')
      end
    else (Ok (mkResponse (VDict [("error", VStr "Title is required")]) 400),
          w).
Proof.
  unfold app.handle_mood_tags, app.get_book_mood_tags_safe, dict_get. run.
  destruct (truthy (entry "title" entries (VStr ""))); cbn [negb];
    [|reflexivity].
  now destruct (ai_service.get_book_mood_tags_safe avail enhanced
                  (entry "title" entries (VStr ""))
                  (entry "author" entries (VStr "")) w) as [[tags|e] w'].
Qed.

(** C4.  [get_book_mood_tags_safe] returns the analyzer's tags when the
    analyzer is available and answers, and the empty list when it is absent
    or raises.  So the mood-tags endpoint, given a title that is not empty,
    answers 200 with [{success: true, mood_tags: []}] when the analyzer's
    call raises (or the analyzer is absent), not 500. *)
Theorem C4_tags_or_nothing {Ext} (avail : bool) (enhanced : Analyzer Ext)
    (title author : value) (w : World Ext) :
  let safe := ai_service.get_book_mood_tags_safe avail enhanced
                title author w in
  let answer := enhanced_get_book_mood_tags enhanced title author (ext w) in
  (avail = true -> forall tags, fst answer = Ok tags -> fst safe = Ok tags)
  /\ (avail = true -> forall e, fst answer = Raised e -> fst safe = Ok [])
  /\ (avail = false -> safe = (Ok [], w))
  /\ (forall entries,
         entry "title" entries (VStr "") = title ->
         entry "author" entries (VStr "") = author ->
         truthy title = true ->
         avail = false \/ (exists e, fst answer = Raised e) ->
         fst (app.handle_mood_tags avail enhanced (VDict entries) w)
         = Ok (mkResponse
                 (VDict [("success", VBool true); ("mood_tags", VList [])])
                 200)).
Proof.
  cbn zeta. rewrite get_book_mood_tags_safe_run.
  split; [| split; [| split]].
  - intros -> tags.
    destruct (enhanced_get_book_mood_tags enhanced title author (ext w))
      as [[tags'|e] x]; cbn [fst]; congruence.
  - intros -> e.
    destruct (enhanced_get_book_mood_tags enhanced title author (ext w))
      as [[tags'|e'] x]; cbn [fst]; congruence.
  - now intros ->.
  - intros entries Et Ea Htitle Hnone.
    rewrite handle_mood_tags_run, Et, Ea, Htitle,
      get_book_mood_tags_safe_run.
    destruct Hnone as [-> | [e He]]; [reflexivity|].
    destruct avail; [|reflexivity].
    destruct (enhanced_get_book_mood_tags enhanced title author (ext w))
      as [[tags'|e'] x]; cbn [fst] in He; [discriminate He | reflexivity].
Qed.

Lemma C4_witness :
  entry "title" [("title", VStr "Dune"); ("author", VStr "Frank Herbert")]
    (VStr "") = VStr "Dune"
  /\ entry "author" [("title", VStr "Dune"); ("author", VStr "Frank Herbert")]
       (VStr "") = VStr "Frank Herbert"
  /\ truthy (VStr "Dune") = true
  /\ (exists e,
         fst (enhanced_get_book_mood_tags broken
                (VStr "Dune") (VStr "Frank Herbert") (ext (start tt)))
         = Raised e)
  /\ fst (app.handle_mood_tags true broken dune_request (start tt))
     = Ok (mkResponse
             (VDict [("success", VBool true); ("mood_tags", VList [])]) 200).
Proof.
  assert (R : exists e,
             fst (enhanced_get_book_mood_tags broken
                    (VStr "Dune") (VStr "Frank Herbert") (ext (start tt)))
             = Raised e)
    by (eexists; reflexivity).
  split; [reflexivity|]. split; [reflexivity|]. split; [reflexivity|].
  split; [exact R|].
  exact (proj2 (proj2 (proj2
           (C4_tags_or_nothing true broken (VStr "Dune")
              (VStr "Frank Herbert") (start tt))))
           [("title", VStr "Dune"); ("author", VStr "Frank Herbert")]
           eq_refl eq_refl eq_refl (or_intror R)).
Defined.

(** ** The analyze-mood endpoint *)

Lemma handle_analyze_mood_run {Ext} (avail : bool) (enhanced : Analyzer Ext)
    (data : value) (w : World Ext) :
  app.handle_analyze_mood avail enhanced data w
  = if avail then
      match data with
      | VDict entries =>
          let title := entry "title" entries (VStr "") in
          let author := entry "author" entries (VStr "") in
          if truthy title then
            match enhanced_analyze_book_mood enhanced title author (ext w)
            with
            | (Ok found, x) =>
                (Ok (if truthy found then
                       mkResponse (VDict [("success", VBool true);
                                          ("mood_analysis", found)]) 200
                     else
                       mkResponse
                         (error_envelope
                            "Could not analyze mood for this book") 404),
                 mkWorld x (stdout w)
                   (calls w ++ [Call_analyze_book_mood title author])%list)
            | (Raised e, x) =>
                (Ok (mkResponse (error_envelope (exn_str e)) 500),
                 mkWorld x (stdout w)
                   (calls w ++ [Call_analyze_book_mood title author])%list)
            end
          else
            (Ok (mkResponse (VDict [("error", VStr "Title is required")])
                   400), w)
      | _ => (Raised (AttributeError data "get"), w)
      end
    else
      (Ok (mkResponse
             (error_envelope
                "Mood analysis not available - missing dependencies") 503),
       w).
Proof.
  unfold app.handle_analyze_mood, app.analyze_book_mood, dict_get.
  destruct avail; cbn [negb]; [|reflexivity].
  destruct data; run; try reflexivity. cbn zeta.
  destruct (truthy (entry "title" entries (VStr ""))); cbn [negb];
    [|reflexivity].
  destruct (enhanced_analyze_book_mood enhanced
              (entry "title" entries (VStr ""))
              (entry "author" entries (VStr "")) (ext w)) as [[found|e] x];
    [|reflexivity].
  now destruct (truthy found).
Qed.

(** C6.  A POST to /api/v1/analyze-mood with a JSON object answers 503 when
    the analyzer is absent; with the analyzer there, 400 when the title is
    missing (or empty), 404 when the analyzer finds no analysis, 500 when
    the analyzer raises, and otherwise 200 with
    [{success: true, mood_analysis: result}]. *)
Theorem C6_analyze_mood_statuses {Ext} (avail : bool)
    (enhanced : Analyzer Ext) (entries : list (string * value))
    (w : World Ext) :
  let title := entry "title" entries (VStr "") in
  let author := entry "author" entries (VStr "") in
  let found := fst (enhanced_analyze_book_mood enhanced title author (ext w)) in
  let response :=
    fst (app.handle_analyze_mood avail enhanced (VDict entries) w) in
  (avail = false ->
   response
   = Ok (mkResponse
           (error_envelope "Mood analysis not available - missing dependencies")
           503))
  /\ (avail = true -> lookup "title" entries = None \/ truthy title = false ->
      response
      = Ok (mkResponse (VDict [("error", VStr "Title is required")]) 400))
  /\ (avail = true -> truthy title = true ->
      forall analysis, found = Ok analysis -> truthy analysis = false ->
      response
      = Ok (mkResponse (error_envelope "Could not analyze mood for this book")
              404))
  /\ (avail = true -> truthy title = true ->
      forall e, found = Raised e ->
      response = Ok (mkResponse (error_envelope (exn_str e)) 500))
  /\ (avail = true -> truthy title = true ->
      forall analysis, found = Ok analysis -> truthy analysis = true ->
      response
      = Ok (mkResponse
              (VDict [("success", VBool true); ("mood_analysis", analysis)])
              200)).
Proof.
  cbn zeta. rewrite handle_analyze_mood_run. cbn zeta.
  split; [now intros -> | split; [| split; [| split]]].
  - intros -> [Hmissing | Hempty].
    + unfold entry. now rewrite Hmissing.
    + now rewrite Hempty.
  - intros -> -> analysis.
    destruct (enhanced_analyze_book_mood enhanced
                (entry "title" entries (VStr ""))
                (entry "author" entries (VStr "")) (ext w)) as [[a|e] x];
      cbn [fst]; [|discriminate].
    intros [= ->] ->. reflexivity.
  - intros -> -> e.
    destruct (enhanced_analyze_book_mood enhanced
                (entry "title" entries (VStr ""))
                (entry "author" entries (VStr "")) (ext w)) as [[a|e'] x];
      cbn [fst]; [discriminate|].
    now intros [= ->].
  - intros -> -> analysis.
    destruct (enhanced_analyze_book_mood enhanced
                (entry "title" entries (VStr ""))
                (entry "author" entries (VStr "")) (ext w)) as [[a|e] x];
      cbn [fst]; [|discriminate].
    intros [= ->] ->. reflexivity.
Qed.

Lemma C6_witness :
  truthy (entry "title"
            [("title", VStr "Dune"); ("author", VStr "Frank Herbert")]
            (VStr "")) = true
  /\ fst (enhanced_analyze_book_mood broken (VStr "Dune")
            (VStr "Frank Herbert") (ext (start tt))) = Ok VNone
  /\ truthy VNone = false
  /\ fst (app.handle_analyze_mood true broken dune_request (start tt))
     = Ok (mkResponse (error_envelope "Could not analyze mood for this book")
             404).
Proof.
  split; [reflexivity|]. split; [reflexivity|]. split; [reflexivity|].
  exact (proj1 (proj2 (proj2
           (C6_analyze_mood_statuses true broken
              [("title", VStr "Dune"); ("author", VStr "Frank Herbert")]
              (start tt))))
           eq_refl eq_refl VNone eq_refl eq_refl).
Defined.

(** C8.  On /api/v1/analyze-mood the availability check comes first: while
    the analyzer is absent every request, whatever its body, is answered
    503 with the error envelope and nothing else happens; so a 400 answer
    can only come with the analyzer available. *)
Theorem C8_availability_first {Ext} (avail : bool) (enhanced : Analyzer Ext)
    (data : value) (w : World Ext) :
  (avail = false ->
   app.handle_analyze_mood avail enhanced data w
   = (Ok (mkResponse
            (error_envelope
               "Mood analysis not available - missing dependencies") 503),
      w))
  /\ (forall response w',
         app.handle_analyze_mood avail enhanced data w = (Ok response, w') ->
         status response = 400 ->
         avail = true).
Proof.
  rewrite handle_analyze_mood_run. split.
  - now intros ->.
  - intros response w'. destruct avail; [reflexivity|].
    intros [= <- _]. discriminate.
Qed.

Lemma C8_witness :
  app.handle_analyze_mood false steady (VDict []) (start tt)
  = (Ok (mkResponse
           (error_envelope
              "Mood analysis not available - missing dependencies") 503),
     start tt).
Proof.
  exact (proj1 (C8_availability_first false steady (VDict []) (start tt))
           eq_refl).
Defined.

(** ** The mood-search endpoint *)

Lemma handle_mood_search_run {Ext} (data : value) (w : World Ext) :
  app.handle_mood_search data w
  = match data with
    | VDict entries =>
        let mood_query := entry "query" entries (VStr "") in
        if truthy mood_query then
          match ai_service.get_ai_recommendations mood_query w with
          | (Ok recommendations, w') =>
              (Ok (mkResponse
                     (VDict [("success", VBool true);
                             ("recommendations", VStr recommendations);
                             ("query", mood_query)]) 200), w')
          | (Raised e, w') =>
              (Ok (mkResponse (error_envelope (exn_str e)) 500), w')
          end
        else
          (Ok (mkResponse (VDict [("error", VStr "Query is required")]) 400),
           w)
    | _ => (Raised (AttributeError data "get"), w)
    end.
Proof.
  unfold app.handle_mood_search, app.get_ai_recommendations, dict_get.
  destruct data; run; try reflexivity. cbn zeta.
  destruct (truthy (entry "query" entries (VStr ""))); cbn [negb];
    [|reflexivity].
  now destruct (ai_service.get_ai_recommendations
                  (entry "query" entries (VStr "")) w) as [[r|e] w'].
Qed.

(** No answer for a matched mood reads as the echo of a query. *)
Lemma mood_answer_not_echo (query_lower answer text : string) :
  ai_service.first_mood ai_service.mood_queries query_lower = Some answer ->
  answer <> "AI-optimized results for: " ++ text.
Proof.
  intros H. destruct (first_mood_answers _ _ _ H) as [m [e [Hin [_ ->]]]].
  cbn in Hin.
  repeat (destruct Hin as [[= <- <-] | Hin]; [discriminate|]).
  destruct Hin.
Qed.

(** C9.  A POST to /api/v1/mood-search whose query field is absent or the
    empty string is answered 400 with [{"error": "Query is required"}].
    Every other answer of the endpoint is made from
    [get_ai_recommendations] applied to a query that is not empty, so an
    answer that echoes the query ("AI-optimized results for: ...") echoes
    a non-empty one. *)
Theorem C9_query_required {Ext} (data : value) (w : World Ext) :
  (forall entries,
      data = VDict entries ->
      lookup "query" entries = None
      \/ lookup "query" entries = Some (VStr "") ->
      app.handle_mood_search data w
      = (Ok (mkResponse (VDict [("error", VStr "Query is required")]) 400),
         w))
  /\ (forall response w',
         app.handle_mood_search data w = (Ok response, w') ->
         status response <> 400 ->
         exists entries mood_query,
           data = VDict entries
           /\ mood_query = entry "query" entries (VStr "")
           /\ truthy mood_query = true
           /\ mood_query <> VStr ""
           /\ match ai_service.get_ai_recommendations mood_query w with
              | (Ok recommendations, w'') =>
                  response
                  = mkResponse
                      (VDict [("success", VBool true);
                              ("recommendations", VStr recommendations);
                              ("query", mood_query)]) 200
                  /\ w' = w''
              | (Raised e, w'') =>
                  response = mkResponse (error_envelope (exn_str e)) 500
                  /\ w' = w''
              end)
  /\ (forall response w' text,
         app.handle_mood_search data w = (Ok response, w') ->
         field "recommendations" (body response)
         = Some (VStr ("AI-optimized results for: " ++ text)) ->
         text <> ""
         /\ exists entries,
              data = VDict entries
              /\ lookup "query" entries = Some (VStr text)).
Proof.
  rewrite handle_mood_search_run. split; [| split].
  - intros entries -> [H | H]; unfold entry; cbn zeta; now rewrite H.
  - intros response w'. destruct data as [| | | | |entries];
      try discriminate. cbn zeta.
    destruct (truthy (entry "query" entries (VStr ""))) eqn:T.
    + intros H _. exists entries, (entry "query" entries (VStr "")).
      split; [reflexivity|]. split; [reflexivity|]. split; [exact T|].
      split; [intros E; rewrite E in T; discriminate T|].
      destruct (ai_service.get_ai_recommendations
                  (entry "query" entries (VStr "")) w) as [[r|e] w''];
        injection H as <- <-; now split.
    + intros [= <- _] N. now elim N.
  - intros response w' text. destruct data as [| | | | |entries];
      try discriminate. cbn zeta. unfold entry.
    destruct (lookup "query" entries) as [mood_query|] eqn:L;
      [|intros [= <- _]; discriminate].
    destruct (truthy mood_query) eqn:T; [|intros [= <- _]; discriminate].
    unfold ai_service.get_ai_recommendations.
    destruct mood_query as [| | |q| |]; run;
      try (intros [= <- _]; discriminate).
    cbn zeta.
    destruct (ai_service.first_mood ai_service.mood_queries (lower q))
      as [answer|] eqn:F; intros [= <- _]; cbn; intros [= E].
    + now elim (mood_answer_not_echo _ _ text F).
    + subst q. split; [now apply truthy_str | now exists entries].
Qed.

Lemma C9_witness :
  (lookup "query" [("query", VStr "")] = None
   \/ lookup "query" [("query", VStr "")] = Some (VStr ""))
  /\ app.handle_mood_search (VDict [("query", VStr "")]) (start tt)
     = (Ok (mkResponse (VDict [("error", VStr "Query is required")]) 400),
        start tt).
Proof.
  assert (H : lookup "query" [("query", VStr "")] = None
              \/ lookup "query" [("query", VStr "")] = Some (VStr ""))
    by (right; reflexivity).
  split; [exact H|].
  exact (proj1 (C9_query_required (VDict [("query", VStr "")]) (start tt))
           [("query", VStr "")] eq_refl H).
Defined.

(** ** Error answers *)

Lemma handle_generate_note_status {Ext} (avail : bool)
    (enhanced : Analyzer Ext) (data : value) (w w' : World Ext)
    (response : Response) :
  app.handle_generate_note avail enhanced data w = (Ok response, w') ->
  status response = 200.
Proof.
  unfold app.handle_generate_note, dict_get.
  destruct data; run; try discriminate.
  destruct (app.generate_book_note avail enhanced
              (entry "description" entries (VStr ""))
              (entry "title" entries (VStr ""))
              (entry "author" entries (VStr "")) w) as [[vibe|e] w''];
    [|discriminate].
  now intros [= <- _].
Qed.

(** C3, as the code has it.  Every answer of a handler with a status other
    than 200 carries an error message.  With status 503, 404 or 500 its
    body is the envelope [{success: false, error: message}]; with status
    400, the answer to a missing required field, its body is
    [{error: message}] and has no "success" field. *)
Theorem C3_error_bodies {Ext} (app_avail service_avail : bool)
    (enhanced : Analyzer Ext) (r : app.route) (data : value)
    (w w' : World Ext) (response : Response) :
  app.handler app_avail service_avail enhanced r data w = (Ok response, w') ->
  status response <> 200 ->
  (status response = 400
   /\ (exists message, body response = VDict [("error", VStr message)])
   /\ field "success" (body response) = None)
  \/ ((status response = 503 \/ status response = 404
       \/ status response = 500)
      /\ exists message, body response = error_envelope message).
Proof.
  destruct r; cbn [app.handler].
  - intros H N. now elim N; apply (handle_generate_note_status _ _ _ _ _ _ H).
  - rewrite handle_analyze_mood_run.
    destruct app_avail.
    + destruct data; try discriminate. cbn zeta.
      destruct (truthy (entry "title" entries (VStr ""))).
      * destruct (enhanced_analyze_book_mood enhanced
                    (entry "title" entries (VStr ""))
                    (entry "author" entries (VStr "")) (ext w))
          as [[found|e] x].
        -- destruct (truthy found); intros [= <- _] N.
           ++ now elim N.
           ++ right. split; [tauto | eexists; reflexivity].
        -- intros [= <- _] _. right. split; [tauto | eexists; reflexivity].
      * intros [= <- _] _. left.
        split; [reflexivity | split; [eexists; reflexivity | reflexivity]].
    + intros [= <- _] _. right. split; [tauto | eexists; reflexivity].
  - destruct data; try (unfold app.handle_mood_tags, dict_get; run;
                        discriminate).
    rewrite handle_mood_tags_run.
    destruct (truthy (entry "title" entries (VStr ""))).
    + destruct (ai_service.get_book_mood_tags_safe service_avail enhanced
                  (entry "title" entries (VStr ""))
                  (entry "author" entries (VStr "")) w) as [[tags|e] w''];
        intros [= <- _] N.
      * now elim N.
      * right. split; [tauto | eexists; reflexivity].
    + intros [= <- _] _. left.
      split; [reflexivity | split; [eexists; reflexivity | reflexivity]].
  - rewrite handle_mood_search_run.
    destruct data; try discriminate. cbn zeta.
    destruct (truthy (entry "query" entries (VStr ""))).
    + destruct (ai_service.get_ai_recommendations
                  (entry "query" entries (VStr "")) w) as [[rec|e] w''];
        intros [= <- _] N.
      * now elim N.
      * right. split; [tauto | eexists; reflexivity].
    + intros [= <- _] _. left.
      split; [reflexivity | split; [eexists; reflexivity | reflexivity]].
  - unfold app.health_check. run. intros [= <- _] N. now elim N.
Qed.

Lemma C3_witness :
  app.handler true true steady app.POST_mood_search
    (VDict [("query", VInt 5)]) (start tt)
  = (Ok (mkResponse
           (error_envelope "'int' object has no attribute 'lower'") 500),
     start tt)
  /\ 500 <> 200
  /\ exists message,
       error_envelope "'int' object has no attribute 'lower'"
       = error_envelope message.
Proof.
  assert (H : app.handler true true steady app.POST_mood_search
                (VDict [("query", VInt 5)]) (start tt)
              = (Ok (mkResponse
                       (error_envelope
                          "'int' object has no attribute 'lower'") 500),
                 start tt)) by reflexivity.
  assert (N : status (mkResponse
                        (error_envelope
                           "'int' object has no attribute 'lower'") 500)
              <> 200) by discriminate.
  split; [exact H|]. split; [exact N|].
  destruct (C3_error_bodies true true steady app.POST_mood_search
              (VDict [("query", VInt 5)]) (start tt) (start tt) _ H N)
    as [[E _] | [_ B]].
  - discriminate E.
  - exact B.
Defined.

(** C3, as the claim has it, fails: the 400 answer of /api/v1/mood-tags to
    a body without a title is [{error: "Title is required"}]; it is not the
    envelope and has no "success" field. *)
Lemma C3_counterexample :
  app.handle_mood_tags true steady (VDict [("author", VStr "Frank Herbert")])
    (start tt)
  = (Ok (mkResponse (VDict [("error", VStr "Title is required")]) 400),
     start tt)
  /\ field "success" (VDict [("error", VStr "Title is required")])
     <> Some (VBool false)
  /\ forall message,
       VDict [("error", VStr "Title is required")] <> error_envelope message.
Proof.
  split; [reflexivity | split; [discriminate | intros message; discriminate]].
Qed.

(** * Beyond the specification: what the code shows besides *)

(** ** Letter case *)

(** X1.  The local heuristic of [generate_book_note] looks at a
    description only through its length and its lower-cased text: two
    descriptions of the same length whose lower-cased texts are equal get
    the same note.  Both are asked for: lower-casing need not keep the
    length of a text. *)
Theorem note_ignores_case {Ext} (avail : bool) (enhanced : Analyzer Ext)
    (description1 description2 : string) (title author : value)
    (w : World Ext) :
  avail = false \/ truthy title = false \/ truthy author = false ->
  String.length description1 = String.length description2 ->
  lower description1 = lower description2 ->
  ai_service.generate_book_note avail enhanced
    (VStr description1) title author w
  = ai_service.generate_book_note avail enhanced
      (VStr description2) title author w.
Proof.
  intros H N L. unfold ai_service.generate_book_note.
  rewrite (not_consulted _ _ _ H), !description_based_str.
  now rewrite N, L.
Qed.

Lemma note_ignores_case_witness :
  (false = false \/ truthy VNone = false \/ truthy VNone = false)
  /\ String.length "A Gothic MYSTERY" = String.length "a gothic mystery"
  /\ lower "A Gothic MYSTERY" = lower "a gothic mystery"
  /\ ai_service.generate_book_note false steady
       (VStr "A Gothic MYSTERY") VNone VNone (start tt)
     = ai_service.generate_book_note false steady
         (VStr "a gothic mystery") VNone VNone (start tt).
Proof.
  assert (H : false = false \/ truthy VNone = false \/ truthy VNone = false)
    by (left; reflexivity).
  assert (N : String.length "A Gothic MYSTERY"
              = String.length "a gothic mystery") by reflexivity.
  assert (L : lower "A Gothic MYSTERY" = lower "a gothic mystery")
    by reflexivity.
  split; [exact H|]. split; [exact N|]. split; [exact L|].
  exact (note_ignores_case false steady "A Gothic MYSTERY" "a gothic mystery"
           VNone VNone (start tt) H N L).
Defined.

(** ** The thresholds of the local heuristic *)

(** X2.  The two length tests are strict and come before the keywords.  A
    description of 101 to 200 characters gets the "compelling story" phrase
    whatever it contains, 200 included; one of at most 100 characters, 100
    included, is judged by its keywords alone and gets one of the three
    other phrases. *)
Theorem note_length_thresholds {Ext} (avail : bool) (enhanced : Analyzer Ext)
    (description : string) (title author : value) (w : World Ext) :
  avail = false \/ truthy title = false \/ truthy author = false ->
  let note :=
    ai_service.generate_book_note avail enhanced
      (VStr description) title author w in
  (100 < String.length description <= 200 ->
   note = (Ok "A compelling story with layers waiting to be discovered.", w))
  /\ (String.length description <= 100 ->
      note = (Ok "A mysterious tale that will keep you guessing.", w)
      \/ note = (Ok "A heartwarming story perfect for cozy reading.", w)
      \/ note = (Ok "A delightful read for any quiet moment.", w)).
Proof.
  intros H. cbn zeta. unfold ai_service.generate_book_note.
  rewrite (not_consulted _ _ _ H), description_based_str. split.
  - intros [Hlow Hhigh].
    assert (E1 : (200 <? String.length description)%nat = false)
      by (apply Nat.ltb_ge; exact Hhigh).
    assert (E2 : (100 <? String.length description)%nat = true)
      by (apply Nat.ltb_lt; exact Hlow).
    now rewrite E1, E2.
  - intros Hlen.
    assert (E1 : (200 <? String.length description)%nat = false)
      by (apply Nat.ltb_ge; lia).
    assert (E2 : (100 <? String.length description)%nat = false)
      by (apply Nat.ltb_ge; exact Hlen).
    rewrite E1, E2.
    destruct (str_in "mystery" (lower description)); [now left|].
    destruct (str_in "romance" (lower description)); [right; now left|].
    right; now right.
Qed.

Lemma note_length_thresholds_witness :
  (false = false \/ truthy VNone = false \/ truthy VNone = false)
  /\ 100 < String.length (String.substring 0 200 long_description) <= 200
  /\ ai_service.generate_book_note false steady
       (VStr (String.substring 0 200 long_description)) VNone VNone (start tt)
     = (Ok "A compelling story with layers waiting to be discovered.",
        start tt).
Proof.
  assert (H : false = false \/ truthy VNone = false \/ truthy VNone = false)
    by (left; reflexivity).
  assert (L : 100 < String.length (String.substring 0 200 long_description)
              <= 200).
  { split; [apply Nat.ltb_lt | apply Nat.leb_le]; vm_compute; reflexivity. }
  split; [exact H|]. split; [exact L|].
  exact (proj1 (note_length_thresholds false steady
                  (String.substring 0 200 long_description) VNone VNone
                  (start tt) H) L).
Defined.

(** ** Descriptions that are not text *)

Lemma generate_book_note_run {Ext} (avail : bool) (enhanced : Analyzer Ext)
    (description title author : value) (w : World Ext) :
  ai_service.generate_book_note avail enhanced description title author w
  = if avail && truthy title && truthy author then
      match enhanced_generate_enhanced_book_note enhanced
              description title author (ext w) with
      | (Ok text, x) =>
          (Ok text,
           mkWorld x (stdout w)
             (calls w ++ [Call_generate_enhanced_book_note
                            description title author])%list)
      | (Raised e, x) =>
          ai_service.description_based description
            (mkWorld x
               (stdout w
                  ++ [("Mood analysis failed, using fallback: "
                        ++ exn_str e)%string])%list
               (calls w ++ [Call_generate_enhanced_book_note
                              description title author])%list)
      end
    else ai_service.description_based description w.
Proof.
  unfold ai_service.generate_book_note,
    ai_service.generate_enhanced_book_note.
  destruct (avail && truthy title && truthy author); [|reflexivity].
  run.
  now destruct (enhanced_generate_enhanced_book_note enhanced description
                  title author (ext w)) as [[text|e] x].
Qed.

(** What lines 23-32 do with a description of any type. *)
Lemma description_based_run {Ext} (description : value) (w : World Ext) :
  fst (ai_service.description_based description w)
  = match description with
    | VNone | VBool _ | VInt _ => Raised (TypeError_len description)
    | VStr s => fst (ai_service.description_based (VStr s) w)
    | VList items =>
        if (200 <? List.length items)%nat then
          Ok "A deep, complex narrative that readers find emotionally resonant."
        else if (100 <? List.length items)%nat then
          Ok "A compelling story with layers waiting to be discovered."
        else Raised (AttributeError description "lower")
    | VDict entries =>
        if (200 <? List.length entries)%nat then
          Ok "A deep, complex narrative that readers find emotionally resonant."
        else if (100 <? List.length entries)%nat then
          Ok "A compelling story with layers waiting to be discovered."
        else Raised (AttributeError description "lower")
    end.
Proof.
  unfold ai_service.description_based, in_lower, py_len, py_lower.
  destruct description; run; try reflexivity.
  - now destruct (200 <? List.length items)%nat,
      (100 <? List.length items)%nat.
  - now destruct (200 <? List.length entries)%nat,
      (100 <? List.length entries)%nat.
Qed.

(** Falling back: the analyzer is not consulted, or what it raised was
    swallowed.  The note is then the one of lines 23-32. *)
Lemma generate_book_note_falls_back {Ext} (avail : bool)
    (enhanced : Analyzer Ext) (description title author : value)
    (w : World Ext) :
  avail && truthy title && truthy author = false
  \/ (exists e,
         fst (enhanced_generate_enhanced_book_note enhanced
                description title author (ext w)) = Raised e) ->
  fst (ai_service.generate_book_note avail enhanced
         description title author w)
  = fst (ai_service.description_based description w).
Proof.
  intros Hfall. rewrite generate_book_note_run.
  destruct (avail && truthy title && truthy author); [|reflexivity].
  destruct Hfall as [Hfall | [e He]]; [discriminate Hfall|].
  destruct (enhanced_generate_enhanced_book_note enhanced description
              title author (ext w)) as [[text|e'] x]; cbn [fst] in He;
    [discriminate He|].
  apply description_based_pure.
Qed.

(** X3.  [generate_book_note] does not check that the description is text.
    When the analyzer answers, the description is never looked at and any
    value passes.  When the function falls back (analyzer not consulted, or
    its exception swallowed), a description that is null, a boolean or a
    number makes [len] raise a TypeError to the caller, and a list or
    object of at most 100 items makes [.lower()] raise an AttributeError. *)
Theorem note_non_text_description {Ext} (avail : bool)
    (enhanced : Analyzer Ext) (description title author : value)
    (w : World Ext) :
  let note :=
    fst (ai_service.generate_book_note avail enhanced
           description title author w) in
  let answer :=
    fst (enhanced_generate_enhanced_book_note enhanced
           description title author (ext w)) in
  let consulted := avail && truthy title && truthy author in
  (consulted = true -> forall text, answer = Ok text -> note = Ok text)
  /\ (consulted = false \/ (exists e, answer = Raised e) ->
      (type_name description = "NoneType"
       \/ type_name description = "bool"
       \/ type_name description = "int" ->
       note = Raised (TypeError_len description))
      /\ (forall items,
             description = VList items -> List.length items <= 100 ->
             note = Raised (AttributeError description "lower"))
      /\ (forall entries,
             description = VDict entries -> List.length entries <= 100 ->
             note = Raised (AttributeError description "lower"))).
Proof.
  cbn zeta. split.
  - rewrite generate_book_note_run. intros -> text.
    destruct (enhanced_generate_enhanced_book_note enhanced description
                title author (ext w)) as [[text'|e] x]; cbn [fst];
      [now intros [= ->] | discriminate].
  - intros Hfall.
    rewrite (generate_book_note_falls_back _ _ _ _ _ _ Hfall),
      description_based_run.
    split; [| split].
    + destruct description; cbn [type_name];
        intros [T | [T | T]]; try discriminate T; reflexivity.
    + intros items -> Hlen.
      assert (E1 : (200 <? List.length items)%nat = false)
        by (apply Nat.ltb_ge; lia).
      assert (E2 : (100 <? List.length items)%nat = false)
        by (apply Nat.ltb_ge; exact Hlen).
      now rewrite E1, E2.
    + intros entries -> Hlen.
      assert (E1 : (200 <? List.length entries)%nat = false)
        by (apply Nat.ltb_ge; lia).
      assert (E2 : (100 <? List.length entries)%nat = false)
        by (apply Nat.ltb_ge; exact Hlen).
      now rewrite E1, E2.
Qed.

Lemma note_non_text_description_witness :
  (true && truthy (VStr "Dune") && truthy (VStr "Frank Herbert") = false
   \/ exists e,
        fst (enhanced_generate_enhanced_book_note broken
               (VInt 7) (VStr "Dune") (VStr "Frank Herbert") (ext (start tt)))
        = Raised e)
  /\ (type_name (VInt 7) = "NoneType" \/ type_name (VInt 7) = "bool"
      \/ type_name (VInt 7) = "int")
  /\ fst (ai_service.generate_book_note true broken
            (VInt 7) (VStr "Dune") (VStr "Frank Herbert") (start tt))
     = Raised (Exn "TypeError" "object of type 'int' has no len()").
Proof.
  assert (F : true && truthy (VStr "Dune") && truthy (VStr "Frank Herbert")
              = false
              \/ exists e,
                   fst (enhanced_generate_enhanced_book_note broken
                          (VInt 7) (VStr "Dune") (VStr "Frank Herbert")
                          (ext (start tt)))
                   = Raised e)
    by (right; eexists; reflexivity).
  assert (T : type_name (VInt 7) = "NoneType" \/ type_name (VInt 7) = "bool"
              \/ type_name (VInt 7) = "int")
    by (right; right; reflexivity).
  split; [exact F|]. split; [exact T|].
  exact (proj1 (proj2 (note_non_text_description true broken (VInt 7)
                         (VStr "Dune") (VStr "Frank Herbert") (start tt)) F)
           T).
Defined.

(** ** The answers of the query mapper *)

Lemma first_mood_none_inv (table : list (string * string))
    (query_lower : string) :
  ai_service.first_mood table query_lower = None ->
  forall mood expansion,
    In (mood, expansion) table -> ~ occurs_in mood query_lower.
Proof.
  induction table as [|[m e] table IH]; simpl; intros H mood expansion Hin.
  - destruct Hin.
  - destruct (str_in m query_lower) eqn:E; [discriminate H|].
    destruct Hin as [[= <- <-] | Hin].
    + now apply str_in_absent.
    + now apply (IH H mood expansion).
Qed.

(** X4.  [get_ai_recommendations] echoes the query exactly when none of
    the seven keywords occurs in its lower-cased text: an answer for a
    matched mood is never mistaken for an echo, and an echo never hides a
    keyword. *)
Theorem recommendations_echo_iff_no_keyword {Ext} (query : string)
    (w : World Ext) :
  ai_service.get_ai_recommendations (VStr query) w
  = (Ok ("AI-optimized results for: " ++ query), w)
  <-> (forall mood expansion,
          In (mood, expansion) ai_service.mood_queries ->
          ~ occurs_in mood (lower query)).
Proof.
  unfold ai_service.get_ai_recommendations. cbn zeta. split.
  - destruct (ai_service.first_mood ai_service.mood_queries (lower query))
      as [answer|] eqn:F.
    + unfold ret. intros [= E].
      now elim (mood_answer_not_echo _ _ query F).
    + intros _. now apply first_mood_none_inv.
  - intros H. now rewrite (first_mood_none _ _ H).
Qed.

(** X5.  Matching is blind to letter case: two queries that differ in
    letter case alone either get the very same answer, or both get the
    echo, each of its own spelling. *)
Theorem recommendations_ignore_case {Ext} (query1 query2 : string)
    (w : World Ext) :
  lower query1 = lower query2 ->
  ai_service.get_ai_recommendations (VStr query1) w
  = ai_service.get_ai_recommendations (VStr query2) w
  \/ (ai_service.get_ai_recommendations (VStr query1) w
      = (Ok ("AI-optimized results for: " ++ query1), w)
      /\ ai_service.get_ai_recommendations (VStr query2) w
         = (Ok ("AI-optimized results for: " ++ query2), w)).
Proof.
  intros L. unfold ai_service.get_ai_recommendations. cbn zeta.
  rewrite L.
  destruct (ai_service.first_mood ai_service.mood_queries (lower query2)).
  - now left.
  - right. now split.
Qed.

Lemma recommendations_ignore_case_witness :
  lower "Something COZY, please" = lower "something cozy, PLEASE"
  /\ (ai_service.get_ai_recommendations (VStr "Something COZY, please")
        (start tt)
      = ai_service.get_ai_recommendations (VStr "something cozy, PLEASE")
          (start tt)
      \/ (ai_service.get_ai_recommendations (VStr "Something COZY, please")
            (start tt)
          = (Ok ("AI-optimized results for: " ++ "Something COZY, please"),
             start tt)
          /\ ai_service.get_ai_recommendations
               (VStr "something cozy, PLEASE") (start tt)
             = (Ok ("AI-optimized results for: " ++ "something cozy, PLEASE"),
                start tt))).
Proof.
  assert (L : lower "Something COZY, please" = lower "something cozy, PLEASE")
    by reflexivity.
  split; [exact L|].
  exact (recommendations_ignore_case "Something COZY, please"
           "something cozy, PLEASE" (start tt) L).
Defined.

(** ** The mood-search endpoint, query by query *)

(** X6.  A query that is a non-empty text always succeeds on
    /api/v1/mood-search: the answer is 200, never 500, its
    "recommendations" begin with "AI-optimized ", its "query" gives the
    query back letter for letter, and the request leaves no trace. *)
Theorem mood_search_text_query_succeeds {Ext}
    (entries : list (string * value)) (query : string) (w : World Ext) :
  entry "query" entries (VStr "") = VStr query ->
  query <> "" ->
  exists rest,
    app.handle_mood_search (VDict entries) w
    = (Ok (mkResponse
             (VDict [("success", VBool true);
                     ("recommendations", VStr ("AI-optimized " ++ rest));
                     ("query", VStr query)]) 200), w).
Proof.
  intros E N. rewrite handle_mood_search_run. cbn zeta. rewrite E.
  apply truthy_str in N. rewrite N.
  unfold ai_service.get_ai_recommendations. cbn zeta.
  destruct (ai_service.first_mood ai_service.mood_queries (lower query))
    as [answer|] eqn:F.
  - destruct (first_mood_answers _ _ _ F) as [mood [expansion [_ [_ ->]]]].
    exists (mood ++ " results: " ++ expansion). reflexivity.
  - exists ("results for: " ++ query). reflexivity.
Qed.

Lemma mood_search_text_query_succeeds_witness :
  entry "query" [("query", VStr "Uplifting reads")] (VStr "")
  = VStr "Uplifting reads"
  /\ "Uplifting reads" <> ""
  /\ exists rest,
       app.handle_mood_search (VDict [("query", VStr "Uplifting reads")])
         (start tt)
       = (Ok (mkResponse
                (VDict [("success", VBool true);
                        ("recommendations", VStr ("AI-optimized " ++ rest));
                        ("query", VStr "Uplifting reads")]) 200), start tt).
Proof.
  assert (N : "Uplifting reads" <> "") by discriminate.
  split; [reflexivity|]. split; [exact N|].
  exact (mood_search_text_query_succeeds
           [("query", VStr "Uplifting reads")] "Uplifting reads" (start tt)
           eq_refl N).
Defined.

(** X7.  A query that is present and truthy but not a text (a number, true,
    a non-empty list or object) reaches [get_ai_recommendations], whose
    [.lower()] raises; the handler turns that into a 500 with the envelope
    and Python's message for the type.  Nothing else happens. *)
Theorem mood_search_non_text_query {Ext} (entries : list (string * value))
    (query : value) (w : World Ext) :
  entry "query" entries (VStr "") = query ->
  truthy query = true ->
  (forall text, query <> VStr text) ->
  app.handle_mood_search (VDict entries) w
  = (Ok (mkResponse
           (error_envelope
              ("'" ++ type_name query ++ "' object has no attribute 'lower'"))
           500), w).
Proof.
  intros E T N. rewrite handle_mood_search_run. cbn zeta. rewrite E, T.
  unfold ai_service.get_ai_recommendations.
  destruct query; try reflexivity.
  now elim (N s).
Qed.

Lemma mood_search_non_text_query_witness :
  entry "query" [("query", VList [VStr "cozy"])] (VStr "")
  = VList [VStr "cozy"]
  /\ truthy (VList [VStr "cozy"]) = true
  /\ (forall text, VList [VStr "cozy"] <> VStr text)
  /\ app.handle_mood_search (VDict [("query", VList [VStr "cozy"])])
       (start tt)
     = (Ok (mkResponse
              (error_envelope "'list' object has no attribute 'lower'") 500),
        start tt).
Proof.
  assert (N : forall text, VList [VStr "cozy"] <> VStr text)
    by (intros text; discriminate).
  split; [reflexivity|]. split; [reflexivity|]. split; [exact N|].
  exact (mood_search_non_text_query [("query", VList [VStr "cozy"])]
           (VList [VStr "cozy"]) (start tt) eq_refl eq_refl N).
Defined.

(** ** The mood-tags endpoint *)

(** X8.  [get_book_mood_tags_safe] never raises, so the [except] branch of
    [handle_mood_tags] is dead: the endpoint answers 200 or 400 and never
    500.  The only exception that leaves the handler is the AttributeError
    of [data.get] on a body that is not an object. *)
Theorem mood_tags_never_500 {Ext} (avail : bool) (enhanced : Analyzer Ext)
    (title author data : value) (w : World Ext) :
  (exists tags,
      fst (ai_service.get_book_mood_tags_safe avail enhanced title author w)
      = Ok tags)
  /\ match app.handle_mood_tags avail enhanced data w with
     | (Ok response, _) => status response = 200 \/ status response = 400
     | (Raised e, w') =>
         e = AttributeError data "get" /\ w' = w
         /\ forall entries, data <> VDict entries
     end.
Proof.
  split.
  - rewrite get_book_mood_tags_safe_run.
    destruct avail; [|eexists; reflexivity].
    destruct (enhanced_get_book_mood_tags enhanced title author (ext w))
      as [[tags|e] x]; eexists; reflexivity.
  - destruct data;
      try (unfold app.handle_mood_tags, dict_get; run;
           split; [reflexivity | split; [reflexivity | discriminate]]).
    rewrite handle_mood_tags_run, get_book_mood_tags_safe_run.
    destruct (truthy (entry "title" entries (VStr ""))); [|now right].
    destruct avail; [|now left].
    destruct (enhanced_get_book_mood_tags enhanced
                (entry "title" entries (VStr ""))
                (entry "author" entries (VStr "")) (ext w))
      as [[tags|e] x]; now left.
Qed.

(** X9.  When the analyzer is available and answers, /api/v1/mood-tags
    hands its tags through: the analyzer is called once, with the title and
    the author of the body as they are (the author [""] when the body has
    none), the answer is 200 with the tags in the analyzer's order, and
    nothing is printed. *)
Theorem mood_tags_pass_through {Ext} (enhanced : Analyzer Ext)
    (entries : list (string * value)) (tags : list string) (x : Ext)
    (w : World Ext) :
  let title := entry "title" entries (VStr "") in
  let author := entry "author" entries (VStr "") in
  truthy title = true ->
  enhanced_get_book_mood_tags enhanced title author (ext w) = (Ok tags, x) ->
  app.handle_mood_tags true enhanced (VDict entries) w
  = (Ok (mkResponse
           (VDict [("success", VBool true);
                   ("mood_tags", VList (map VStr tags))]) 200),
     mkWorld x (stdout w)
       (calls w ++ [Call_get_book_mood_tags title author])%list).
Proof.
  cbn zeta. intros T A.
  now rewrite handle_mood_tags_run, T, get_book_mood_tags_safe_run, A.
Qed.

Lemma mood_tags_pass_through_witness :
  truthy (entry "title" [("title", VStr "Dune")] (VStr "")) = true
  /\ enhanced_get_book_mood_tags steady
       (entry "title" [("title", VStr "Dune")] (VStr ""))
       (entry "author" [("title", VStr "Dune")] (VStr "")) (ext (start tt))
     = (Ok ["haunting"; "slow-burning"], tt)
  /\ app.handle_mood_tags true steady (VDict [("title", VStr "Dune")])
       (start tt)
     = (Ok (mkResponse
              (VDict [("success", VBool true);
                      ("mood_tags",
                       VList [VStr "haunting"; VStr "slow-burning"])]) 200),
        mkWorld tt [] [Call_get_book_mood_tags (VStr "Dune") (VStr "")]).
Proof.
  split; [reflexivity|]. split; [reflexivity|].
  exact (mood_tags_pass_through steady [("title", VStr "Dune")]
           ["haunting"; "slow-burning"] tt (start tt) eq_refl eq_refl).
Defined.

Lemma falsy_values (v : value) :
  truthy v = false
  <-> v = VNone \/ v = VBool false \/ v = VInt 0 \/ v = VStr ""
      \/ v = VList [] \/ v = VDict [].
Proof.
  split.
  - destruct v as [|b|z|s|items|entries]; cbn [truthy]; intros H.
    + now left.
    + right; left. now subst b.
    + right; right; left. apply negb_false_iff, Z.eqb_eq in H. now subst z.
    + right; right; right; left.
      apply negb_false_iff, String.eqb_eq in H. now subst s.
    + right; right; right; right; left. destruct items; [reflexivity|].
      discriminate H.
    + right; right; right; right; right. destruct entries; [reflexivity|].
      discriminate H.
  - intros [-> | [-> | [-> | [-> | [-> | ->]]]]]; reflexivity.
Qed.

(** X10.  /api/v1/mood-tags answers 400 "Title is required" exactly when
    the title is absent or falsy: not only the empty text but also null,
    false, 0, an empty list and an empty object count as no title.  Such a
    request never reaches the analyzer. *)
Theorem mood_tags_400_iff {Ext} (avail : bool) (enhanced : Analyzer Ext)
    (entries : list (string * value)) (w : World Ext) :
  (lookup "title" entries = None
   \/ (exists v,
          lookup "title" entries = Some v
          /\ (v = VNone \/ v = VBool false \/ v = VInt 0 \/ v = VStr ""
              \/ v = VList [] \/ v = VDict [])))
  <-> app.handle_mood_tags avail enhanced (VDict entries) w
      = (Ok (mkResponse (VDict [("error", VStr "Title is required")]) 400),
         w).
Proof.
  rewrite handle_mood_tags_run, get_book_mood_tags_safe_run.
  unfold entry at 1 2.
  destruct (lookup "title" entries) as [v|] eqn:L.
  - destruct (truthy v) eqn:T.
    + split.
      * intros [H | [v' [[= <-] H]]]; [discriminate H|].
        apply falsy_values in H. congruence.
      * destruct avail; [|discriminate].
        destruct (enhanced_get_book_mood_tags enhanced v
                    (entry "author" entries (VStr "")) (ext w))
          as [[tags|e] x]; discriminate.
    + split; [reflexivity|]. intros _. right. exists v.
      split; [reflexivity | now apply falsy_values].
  - split; [reflexivity | intros _; now left].
Qed.

(** ** The analyze-mood endpoint and the analyzer *)

(** X11.  With the analyzer available and a title given, the analyze-mood
    handler calls [analyze_book_mood] exactly once, with the title and the
    author of the body as they are (the author [""] when the body has
    none), and prints nothing, also when the call raises: the exception's
    text goes into the 500 answer only. *)
Theorem analyze_mood_calls_once {Ext} (enhanced : Analyzer Ext)
    (entries : list (string * value)) (w : World Ext) :
  let title := entry "title" entries (VStr "") in
  let author := entry "author" entries (VStr "") in
  let after := snd (app.handle_analyze_mood true enhanced (VDict entries) w) in
  truthy title = true ->
  calls after = (calls w ++ [Call_analyze_book_mood title author])%list
  /\ stdout after = stdout w
  /\ ext after
     = snd (enhanced_analyze_book_mood enhanced title author (ext w)).
Proof.
  cbn zeta. intros T. rewrite handle_analyze_mood_run. cbn zeta. rewrite T.
  destruct (enhanced_analyze_book_mood enhanced
              (entry "title" entries (VStr ""))
              (entry "author" entries (VStr "")) (ext w)) as [[found|e] x];
    repeat split.
Qed.

Lemma analyze_mood_calls_once_witness :
  truthy (entry "title" [("title", VStr "Dune")] (VStr "")) = true
  /\ calls (snd (app.handle_analyze_mood true broken
                   (VDict [("title", VStr "Dune")]) (start tt)))
     = [Call_analyze_book_mood (VStr "Dune") (VStr "")]
  /\ stdout (snd (app.handle_analyze_mood true broken
                    (VDict [("title", VStr "Dune")]) (start tt)))
     = [].
Proof.
  pose proof (analyze_mood_calls_once broken [("title", VStr "Dune")]
                (start tt) eq_refl) as [Hcalls [Hout _]].
  split; [reflexivity|]. split; [exact Hcalls | exact Hout].
Defined.

(** ** The generate-note endpoint *)

Lemma handle_generate_note_run {Ext} (avail : bool) (enhanced : Analyzer Ext)
    (entries : list (string * value)) (w : World Ext) :
  app.handle_generate_note avail enhanced (VDict entries) w
  = match ai_service.generate_book_note avail enhanced
            (entry "description" entries (VStr ""))
            (entry "title" entries (VStr ""))
            (entry "author" entries (VStr "")) w with
    | (Ok vibe, w') =>
        (Ok (mkResponse (VDict [("vibe", VStr vibe)]) 200), w')
    | (Raised e, w') => (Raised e, w')
    end.
Proof.
  unfold app.handle_generate_note, app.generate_book_note, dict_get. run.
  now destruct (ai_service.generate_book_note avail enhanced
                  (entry "description" entries (VStr ""))
                  (entry "title" entries (VStr ""))
                  (entry "author" entries (VStr "")) w) as [[vibe|e] w'].
Qed.

(** X12.  For an object body whose description is a text (or absent),
    /api/v1/generate-note always answers 200 with a single "vibe", whatever
    the analyzer does: the vibe is the analyzer's own answer, or one of the
    five phrases of the local heuristic. *)
Theorem generate_note_text_body {Ext} (avail : bool)
    (enhanced : Analyzer Ext) (entries : list (string * value))
    (description : string) (w : World Ext) :
  entry "description" entries (VStr "") = VStr description ->
  exists vibe,
    fst (app.handle_generate_note avail enhanced (VDict entries) w)
    = Ok (mkResponse (VDict [("vibe", VStr vibe)]) 200)
    /\ (fst (enhanced_generate_enhanced_book_note enhanced
               (VStr description)
               (entry "title" entries (VStr ""))
               (entry "author" entries (VStr "")) (ext w)) = Ok vibe
        \/ In vibe
             ["A deep, complex narrative that readers find emotionally resonant.";
              "A compelling story with layers waiting to be discovered.";
              "A mysterious tale that will keep you guessing.";
              "A heartwarming story perfect for cozy reading.";
              "A delightful read for any quiet moment."]).
Proof.
  intros D. rewrite handle_generate_note_run, D, generate_book_note_run.
  assert (P : forall w0 : World Ext,
             exists vibe,
               ai_service.description_based (VStr description) w0
               = (Ok vibe, w0)
               /\ In vibe
                    ["A deep, complex narrative that readers find emotionally resonant.";
                     "A compelling story with layers waiting to be discovered.";
                     "A mysterious tale that will keep you guessing.";
                     "A heartwarming story perfect for cozy reading.";
                     "A delightful read for any quiet moment."]).
  { intros w0. rewrite description_based_str. eexists. split; [reflexivity|].
    cbn [In].
    destruct (200 <? String.length description)%nat; [tauto|].
    destruct (100 <? String.length description)%nat; [tauto|].
    destruct (str_in "mystery" (lower description)); [tauto|].
    destruct (str_in "romance" (lower description)); tauto. }
  destruct (avail && truthy (entry "title" entries (VStr ""))
            && truthy (entry "author" entries (VStr ""))).
  - destruct (enhanced_generate_enhanced_book_note enhanced
                (VStr description) (entry "title" entries (VStr ""))
                (entry "author" entries (VStr "")) (ext w)) as [[text|e] x].
    + exists text. split; [reflexivity | now left].
    + match goal with
      | |- context [ai_service.description_based _ ?w0] =>
          destruct (P w0) as [vibe [E Hin]]
      end.
      exists vibe. rewrite E. split; [reflexivity | now right].
  - destruct (P w) as [vibe [E Hin]].
    exists vibe. rewrite E. split; [reflexivity | now right].
Qed.

Lemma generate_note_text_body_witness :
  entry "description"
    [("title", VStr "Dune"); ("author", VStr "Frank Herbert")] (VStr "")
  = VStr ""
  /\ exists vibe,
       fst (app.handle_generate_note true broken dune_request (start tt))
       = Ok (mkResponse (VDict [("vibe", VStr vibe)]) 200)
       /\ (fst (enhanced_generate_enhanced_book_note broken (VStr "")
                  (VStr "Dune") (VStr "Frank Herbert") (ext (start tt)))
           = Ok vibe
           \/ In vibe
                ["A deep, complex narrative that readers find emotionally resonant.";
                 "A compelling story with layers waiting to be discovered.";
                 "A mysterious tale that will keep you guessing.";
                 "A heartwarming story perfect for cozy reading.";
                 "A delightful read for any quiet moment."]).
Proof.
  split; [reflexivity|].
  exact (generate_note_text_body true broken
           [("title", VStr "Dune"); ("author", VStr "Frank Herbert")]
           "" (start tt) eq_refl).
Defined.

(** X13.  A body that lacks the title or the author key never reaches the
    analyzer on /api/v1/generate-note, whatever the description is: the
    missing field defaults to [""], so the answer is the one given with the
    analyzer absent and the request leaves no trace. *)
Theorem generate_note_missing_keys {Ext} (avail : bool)
    (enhanced : Analyzer Ext) (entries : list (string * value))
    (w : World Ext) :
  lookup "title" entries = None \/ lookup "author" entries = None ->
  app.handle_generate_note avail enhanced (VDict entries) w
  = app.handle_generate_note false enhanced (VDict entries) w
  /\ snd (app.handle_generate_note avail enhanced (VDict entries) w) = w.
Proof.
  intros H.
  assert (C : avail && truthy (entry "title" entries (VStr ""))
              && truthy (entry "author" entries (VStr "")) = false).
  { apply not_consulted. right. unfold entry.
    destruct H as [-> | ->]; [now left | now right]. }
  rewrite !handle_generate_note_run, !generate_book_note_run, C.
  cbn [andb]. split; [reflexivity|].
  pose proof (proj2 (description_based_pure
                       (entry "description" entries (VStr "")) w w)) as P.
  destruct (ai_service.description_based
              (entry "description" entries (VStr "")) w) as [[vibe|e] w'];
    exact P.
Qed.

Lemma generate_note_missing_keys_witness :
  (lookup "title" [("description", VStr "A mystery")] = None
   \/ lookup "author" [("description", VStr "A mystery")] = None)
  /\ app.handle_generate_note true steady
       (VDict [("description", VStr "A mystery")]) (start tt)
     = app.handle_generate_note false steady
         (VDict [("description", VStr "A mystery")]) (start tt)
  /\ snd (app.handle_generate_note true steady
            (VDict [("description", VStr "A mystery")]) (start tt))
     = start tt.
Proof.
  assert (H : lookup "title" [("description", VStr "A mystery")] = None
              \/ lookup "author" [("description", VStr "A mystery")] = None)
    by (left; reflexivity).
  split; [exact H|].
  exact (generate_note_missing_keys true steady
           [("description", VStr "A mystery")] (start tt) H).
Defined.

(** ** Bodies that are not objects *)

(** X14.  [data.get] stands outside every [try]: when the JSON body is not
    an object (null, a number, a text, a list), the generate-note,
    mood-tags and mood-search handlers raise an AttributeError instead of
    answering, and so does analyze-mood when the analyzer is available.
    Nothing has happened by then: no analyzer call, no line printed. *)
Theorem non_object_body_raises {Ext} (app_avail service_avail : bool)
    (enhanced : Analyzer Ext) (data : value) (w : World Ext) :
  (forall entries, data <> VDict entries) ->
  app.handle_generate_note service_avail enhanced data w
  = (Raised (AttributeError data "get"), w)
  /\ app.handle_mood_tags service_avail enhanced data w
     = (Raised (AttributeError data "get"), w)
  /\ app.handle_mood_search data w = (Raised (AttributeError data "get"), w)
  /\ (app_avail = true ->
      app.handle_analyze_mood app_avail enhanced data w
      = (Raised (AttributeError data "get"), w)).
Proof.
  intros N. rewrite handle_mood_search_run, handle_analyze_mood_run.
  unfold app.handle_generate_note, app.handle_mood_tags, dict_get.
  destruct data as [| | | | |entries];
    try (run; repeat split; try reflexivity; now intros ->).
  now elim (N entries).
Qed.

Lemma non_object_body_raises_witness :
  (forall entries, VList [VStr "Dune"] <> VDict entries)
  /\ app.handle_mood_tags true steady (VList [VStr "Dune"]) (start tt)
     = (Raised (Exn "AttributeError" "'list' object has no attribute 'get'"),
        start tt).
Proof.
  assert (N : forall entries, VList [VStr "Dune"] <> VDict entries)
    by (intros entries; discriminate).
  split; [exact N|].
  exact (proj1 (proj2 (non_object_body_raises true true steady
                         (VList [VStr "Dune"]) (start tt) N))).
Defined.

(** ** What a request may do to the process *)

(** The log after a call: what was there, and what the call added. *)
Ltac logged :=
  split; [reflexivity |];
  split; [first [reflexivity | now rewrite app_nil_r] |];
  split; [cbn; lia |];
  split;
    [ intros [H | H]; discriminate H
    | first [intros H; discriminate H | intros _; reflexivity] ].

(** X15.  Whatever the route, the body, the analyzer and the outcome
    (answered or raised), a request makes at most one analyzer call and
    prints at most one line, and a line only after a call; the calls and the
    lines already logged are kept.  The mood-search and health routes make
    no call, and the analyze-mood route prints nothing. *)
Theorem one_analyzer_call_per_request {Ext} (app_avail service_avail : bool)
    (enhanced : Analyzer Ext) (r : app.route) (data : value)
    (w : World Ext) :
  let after :=
    snd (app.handler app_avail service_avail enhanced r data w) in
  exists made printed,
    calls after = (calls w ++ made)%list
    /\ stdout after = (stdout w ++ printed)%list
    /\ List.length printed <= List.length made <= 1
    /\ (r = app.POST_mood_search \/ r = app.GET_health -> made = [])
    /\ (r = app.POST_analyze_mood -> printed = []).
Proof.
  cbn zeta.
  assert (Same : forall w0 : World Ext,
             exists made printed,
               calls w0 = (calls w0 ++ made)%list
               /\ stdout w0 = (stdout w0 ++ printed)%list
               /\ List.length printed <= List.length made <= 1
               /\ made = [] /\ printed = []).
  { intros w0. exists [], []. rewrite !app_nil_r. cbn. repeat split; lia. }
  assert (Keep : forall (w0 : World Ext) (P Q : Prop),
             (exists made printed,
                 calls w0 = (calls w ++ made)%list
                 /\ stdout w0 = (stdout w ++ printed)%list
                 /\ List.length printed <= List.length made <= 1
                 /\ made = [] /\ printed = []) ->
             exists made printed,
               calls w0 = (calls w ++ made)%list
               /\ stdout w0 = (stdout w ++ printed)%list
               /\ List.length printed <= List.length made <= 1
               /\ (P -> made = []) /\ (Q -> printed = [])).
  { intros w0 P Q [made [printed [H1 [H2 [H3 [H4 H5]]]]]].
    exists made, printed. tauto. }
  destruct r; cbn [app.handler].
  - (* generate-note *)
    destruct data;
      try (unfold app.handle_generate_note, dict_get; run;
           apply Keep, Same).
    rewrite handle_generate_note_run, generate_book_note_run.
    pose proof (fun w0 : World Ext =>
                  proj2 (description_based_pure
                           (entry "description" entries (VStr "")) w0 w0))
      as Pure.
    destruct (service_avail && truthy (entry "title" entries (VStr ""))
              && truthy (entry "author" entries (VStr ""))).
    + destruct (enhanced_generate_enhanced_book_note enhanced
                  (entry "description" entries (VStr ""))
                  (entry "title" entries (VStr ""))
                  (entry "author" entries (VStr "")) (ext w))
        as [[text|e] x].
      * cbn [snd calls stdout]. eexists _, []. logged.
      * match goal with
        | |- context [ai_service.description_based ?d ?w0] =>
            specialize (Pure w0);
              destruct (ai_service.description_based d w0) as [[vibe|e'] w']
        end; cbn [snd] in *; subst w'; cbn [calls stdout];
          eexists _, _; logged.
    + specialize (Pure w).
      destruct (ai_service.description_based
                  (entry "description" entries (VStr "")) w)
        as [[vibe|e'] w']; cbn [snd] in *; subst w'; apply Keep, Same.
  - (* analyze-mood *)
    rewrite handle_analyze_mood_run.
    destruct app_avail; [|apply Keep, Same].
    destruct data; try apply Keep, Same. cbn zeta.
    destruct (truthy (entry "title" entries (VStr "")));
      [|apply Keep, Same].
    destruct (enhanced_analyze_book_mood enhanced
                (entry "title" entries (VStr ""))
                (entry "author" entries (VStr "")) (ext w))
      as [[found|e] x]; cbn [snd calls stdout];
      eexists _, []; logged.
  - (* mood-tags *)
    destruct data;
      try (unfold app.handle_mood_tags, dict_get; run; apply Keep, Same).
    rewrite handle_mood_tags_run, get_book_mood_tags_safe_run.
    destruct (truthy (entry "title" entries (VStr "")));
      [|apply Keep, Same].
    destruct service_avail; [|apply Keep, Same].
    destruct (enhanced_get_book_mood_tags enhanced
                (entry "title" entries (VStr ""))
                (entry "author" entries (VStr "")) (ext w))
      as [[tags|e] x]; cbn [snd calls stdout].
    + eexists _, []. logged.
    + eexists _, _. logged.
  - (* mood-search *)
    rewrite handle_mood_search_run.
    destruct data; try apply Keep, Same. cbn zeta.
    destruct (truthy (entry "query" entries (VStr "")));
      [|apply Keep, Same].
    pose proof (proj2 (get_ai_recommendations_pure
                         (entry "query" entries (VStr "")) w w)) as Pure.
    destruct (ai_service.get_ai_recommendations
                (entry "query" entries (VStr "")) w) as [[rec|e] w'];
      cbn [snd] in *; subst w'; apply Keep, Same.
  - (* health *)
    apply Keep, Same.
Qed.

(** X16.  A request that is turned away, answered 400 or 503, has touched
    nothing: the analyzer was not called and no line was printed. *)
Theorem rejections_touch_nothing {Ext} (app_avail service_avail : bool)
    (enhanced : Analyzer Ext) (r : app.route) (data : value)
    (w w' : World Ext) (response : Response) :
  app.handler app_avail service_avail enhanced r data w = (Ok response, w') ->
  status response = 400 \/ status response = 503 ->
  w' = w.
Proof.
  destruct r; cbn [app.handler].
  - intros H [S | S];
      rewrite (handle_generate_note_status _ _ _ _ _ _ H) in S;
      discriminate S.
  - rewrite handle_analyze_mood_run.
    destruct app_avail; [|now intros [= _ <-]].
    destruct data; try discriminate. cbn zeta.
    destruct (truthy (entry "title" entries (VStr "")));
      [|now intros [= _ <-]].
    destruct (enhanced_analyze_book_mood enhanced
                (entry "title" entries (VStr ""))
                (entry "author" entries (VStr "")) (ext w))
      as [[found|e] x].
    + destruct (truthy found); intros [= <- _] [S | S]; discriminate S.
    + intros [= <- _] [S | S]; discriminate S.
  - destruct data;
      try (unfold app.handle_mood_tags, dict_get; run; discriminate).
    rewrite handle_mood_tags_run.
    destruct (truthy (entry "title" entries (VStr "")));
      [|now intros [= _ <-]].
    destruct (ai_service.get_book_mood_tags_safe service_avail enhanced
                (entry "title" entries (VStr ""))
                (entry "author" entries (VStr "")) w) as [[tags|e] w''];
      intros [= <- _] [S | S]; discriminate S.
  - rewrite handle_mood_search_run.
    destruct data; try discriminate. cbn zeta.
    destruct (truthy (entry "query" entries (VStr "")));
      [|now intros [= _ <-]].
    destruct (ai_service.get_ai_recommendations
                (entry "query" entries (VStr "")) w) as [[rec|e] w''];
      intros [= <- _] [S | S]; discriminate S.
  - unfold app.health_check, ret. now intros [= _ <-].
Qed.

Lemma rejections_touch_nothing_witness :
  app.handler true true steady app.POST_analyze_mood
    (VDict [("title", VInt 0); ("author", VStr "Frank Herbert")])
    (mkWorld tt ["an earlier line"] [])
  = (Ok (mkResponse (VDict [("error", VStr "Title is required")]) 400),
     mkWorld tt ["an earlier line"] [])
  /\ (400 = 400 \/ 400 = 503)
  /\ mkWorld tt ["an earlier line"] [] = mkWorld tt ["an earlier line"] [].
Proof.
  assert (H : app.handler true true steady app.POST_analyze_mood
                (VDict [("title", VInt 0); ("author", VStr "Frank Herbert")])
                (mkWorld tt ["an earlier line"] [])
              = (Ok (mkResponse (VDict [("error", VStr "Title is required")])
                       400),
                 mkWorld tt ["an earlier line"] [])) by reflexivity.
  assert (S : status (mkResponse
                        (VDict [("error", VStr "Title is required")]) 400)
              = 400
              \/ status (mkResponse
                           (VDict [("error", VStr "Title is required")]) 400)
                 = 503) by (left; reflexivity).
  split; [exact H|]. split; [exact S|].
  exact (rejections_touch_nothing true true steady app.POST_analyze_mood
           _ _ _ _ H S).
Defined.

(** ** The health route and the analyze-mood route *)

(** X17.  The health route tells the truth about analyze-mood: it reports
    [mood_analysis_available: false] exactly when analyze-mood answers 503,
    and it never fails, reads no body and touches nothing. *)
Theorem health_agrees_with_analyze_mood {Ext} (app_avail : bool)
    (enhanced : Analyzer Ext) (data : value) (w : World Ext) :
  app.health_check app_avail w
  = (Ok (mkResponse
           (VDict [("status", VStr "healthy");
                   ("service", VStr "BiblioDrift Mood Analysis API");
                   ("version", VStr "1.0.0");
                   ("mood_analysis_available", VBool app_avail)]) 200), w)
  /\ ((exists response w',
          app.handle_analyze_mood app_avail enhanced data w
          = (Ok response, w')
          /\ status response = 503)
      <-> (exists response w',
              app.health_check app_avail w = (Ok response, w')
              /\ field "mood_analysis_available" (body response)
                 = Some (VBool false))).
Proof.
  split; [reflexivity|].
  rewrite handle_analyze_mood_run. unfold app.health_check, ret.
  destruct app_avail.
  - split.
    + intros [response [w' [H S]]]. exfalso.
      destruct data; try discriminate H. cbn zeta in H.
      destruct (truthy (entry "title" entries (VStr "")));
        [|injection H as <- _; discriminate S].
      destruct (enhanced_analyze_book_mood enhanced
                  (entry "title" entries (VStr ""))
                  (entry "author" entries (VStr "")) (ext w))
        as [[found|e] x]; [destruct (truthy found)|];
        injection H as <- _; discriminate S.
    + intros [response [w' [[= <- _] F]]]. discriminate F.
  - split; intros _; eexists _, _; split; reflexivity.
Qed.

(** ** Statuses and the success flag *)

(** X18.  Every answer a handler returns has one of the five statuses 200,
    400, 404, 500, 503, and its "success" field never lies: it is true only
    on a 200, and every 200 of analyze-mood, mood-tags and mood-search
    carries [success: true] and no "error". *)
Theorem status_and_success_agree {Ext} (app_avail service_avail : bool)
    (enhanced : Analyzer Ext) (r : app.route) (data : value)
    (w w' : World Ext) (response : Response) :
  app.handler app_avail service_avail enhanced r data w = (Ok response, w') ->
  In (status response) [200; 400; 404; 500; 503]
  /\ (field "success" (body response) = Some (VBool true) ->
      status response = 200)
  /\ (status response = 200 ->
      r = app.POST_analyze_mood \/ r = app.POST_mood_tags
      \/ r = app.POST_mood_search ->
      field "success" (body response) = Some (VBool true)
      /\ field "error" (body response) = None).
Proof.
  assert (Good : forall entries,
             In 200 [200; 400; 404; 500; 503]
             /\ (field "success"
                   (VDict (("success", VBool true) :: entries))
                 = Some (VBool true) -> 200 = 200)
             /\ (200 = 200 ->
                 r = app.POST_analyze_mood \/ r = app.POST_mood_tags
                 \/ r = app.POST_mood_search ->
                 field "success" (VDict (("success", VBool true) :: entries))
                 = Some (VBool true)
                 /\ field "error" (VDict (("success", VBool true) :: entries))
                    = field "error" (VDict entries))).
  { intros entries. split; [now left|]. split; [reflexivity|].
    intros _ _. split; reflexivity. }
  assert (Bad : forall (b : value) (code : nat),
             In code [400; 404; 500; 503] ->
             field "success" b <> Some (VBool true) ->
             In code [200; 400; 404; 500; 503]
             /\ (field "success" b = Some (VBool true) -> code = 200)
             /\ (code = 200 ->
                 r = app.POST_analyze_mood \/ r = app.POST_mood_tags
                 \/ r = app.POST_mood_search ->
                 field "success" b = Some (VBool true)
                 /\ field "error" b = None)).
  { intros b code Hin Hno. split; [now right|]. split; [intros F; now elim Hno|].
    intros ->. cbn in Hin. exfalso.
    destruct Hin as [E | [E | [E | [E | []]]]]; discriminate E. }
  destruct r; cbn [app.handler].
  - destruct data;
      try (unfold app.handle_generate_note, dict_get; run; discriminate).
    rewrite handle_generate_note_run.
    destruct (ai_service.generate_book_note service_avail enhanced
                (entry "description" entries (VStr ""))
                (entry "title" entries (VStr ""))
                (entry "author" entries (VStr "")) w) as [[vibe|e] w''];
      [|discriminate].
    intros [= <- _]. cbn. split; [now left|]. split; [discriminate|].
    intros _ [E | [E | E]]; discriminate E.
  - rewrite handle_analyze_mood_run.
    destruct app_avail.
    + destruct data; try discriminate. cbn zeta.
      destruct (truthy (entry "title" entries (VStr ""))).
      * destruct (enhanced_analyze_book_mood enhanced
                    (entry "title" entries (VStr ""))
                    (entry "author" entries (VStr "")) (ext w))
          as [[found|e] x].
        -- destruct (truthy found); intros [= <- _].
           ++ destruct (Good [("mood_analysis", found)]) as [G1 [G2 G3]].
              split; [exact G1|]. split; [exact G2|].
              intros S R. destruct (G3 S R) as [G4 G5].
              split; [exact G4 | reflexivity].
           ++ apply Bad; cbn; [tauto | discriminate].
        -- intros [= <- _]. apply Bad; cbn; [tauto | discriminate].
      * intros [= <- _]. apply Bad; cbn; [tauto | discriminate].
    + intros [= <- _]. apply Bad; cbn; [tauto | discriminate].
  - destruct data;
      try (unfold app.handle_mood_tags, dict_get; run; discriminate).
    rewrite handle_mood_tags_run.
    destruct (truthy (entry "title" entries (VStr ""))).
    + destruct (ai_service.get_book_mood_tags_safe service_avail enhanced
                  (entry "title" entries (VStr ""))
                  (entry "author" entries (VStr "")) w) as [[tags|e] w''];
        intros [= <- _].
      * destruct (Good [("mood_tags", VList (map VStr tags))])
          as [G1 [G2 G3]].
        split; [exact G1|]. split; [exact G2|].
        intros S R. destruct (G3 S R) as [G4 G5].
        split; [exact G4 | reflexivity].
      * apply Bad; cbn; [tauto | discriminate].
    + intros [= <- _]. apply Bad; cbn; [tauto | discriminate].
  - rewrite handle_mood_search_run.
    destruct data; try discriminate. cbn zeta.
    destruct (truthy (entry "query" entries (VStr ""))).
    + destruct (ai_service.get_ai_recommendations
                  (entry "query" entries (VStr "")) w) as [[rec|e] w''];
        intros [= <- _].
      * destruct (Good [("recommendations", VStr rec);
                        ("query", entry "query" entries (VStr ""))])
          as [G1 [G2 G3]].
        split; [exact G1|]. split; [exact G2|].
        intros S R. destruct (G3 S R) as [G4 G5].
        split; [exact G4 | reflexivity].
      * apply Bad; cbn; [tauto | discriminate].
    + intros [= <- _]. apply Bad; cbn; [tauto | discriminate].
  - unfold app.health_check, ret. intros [= <- _]. cbn.
    split; [now left|]. split; [discriminate|].
    intros _ [E | [E | E]]; discriminate E.
Qed.

Lemma status_and_success_agree_witness :
  app.handler true true steady app.POST_analyze_mood dune_request (start tt)
  = (Ok (mkResponse
           (VDict [("success", VBool true);
                   ("mood_analysis",
                    VDict [("primary_mood", VStr "haunting")])]) 200),
     mkWorld tt []
       [Call_analyze_book_mood (VStr "Dune") (VStr "Frank Herbert")])
  /\ In 200 [200; 400; 404; 500; 503].
Proof.
  assert (H : app.handler true true steady app.POST_analyze_mood dune_request
                (start tt)
              = (Ok (mkResponse
                       (VDict [("success", VBool true);
                               ("mood_analysis",
                                VDict [("primary_mood", VStr "haunting")])])
                       200),
                 mkWorld tt []
                   [Call_analyze_book_mood (VStr "Dune")
                      (VStr "Frank Herbert")])) by reflexivity.
  split; [exact H|].
  exact (proj1 (status_and_success_agree true true steady
                  app.POST_analyze_mood dune_request (start tt) _ _ H)).
Defined.

(** ** The table, entry by entry *)

(** X19.  No entry of the mood table is shadowed by an earlier one: each
    of the seven keywords, sent as the query, gets its own expansion. *)
Theorem every_mood_reachable {Ext} (mood expansion : string)
    (w : World Ext) :
  In (mood, expansion) ai_service.mood_queries ->
  ai_service.get_ai_recommendations (VStr mood) w
  = (Ok ("AI-optimized " ++ mood ++ " results: " ++ expansion), w).
Proof.
  intros Hin. cbn in Hin.
  repeat (destruct Hin as [[= <- <-] | Hin]; [reflexivity|]).
  destruct Hin.
Qed.

Lemma every_mood_reachable_witness :
  In ("adventurous", "adventure fantasy epic") ai_service.mood_queries
  /\ ai_service.get_ai_recommendations (VStr "adventurous") (start tt)
     = (Ok ("AI-optimized " ++ "adventurous" ++ " results: "
              ++ "adventure fantasy epic"), start tt).
Proof.
  assert (Hin : In ("adventurous", "adventure fantasy epic")
                  ai_service.mood_queries) by (cbn; tauto).
  split; [exact Hin|].
  exact (every_mood_reachable "adventurous" "adventure fantasy epic"
           (start tt) Hin).
Defined.

(** ** A failing analyzer, seen from the client *)

(** X20.  On /api/v1/generate-note a failing analyzer cannot be told from
    an absent one by the client: when the call raises, the outcome of the
    request, answer or exception, is the one given with the analyzer
    absent.  The failure shows on the server only, as one printed line
    that quotes the exception. *)
Theorem failing_analyzer_looks_absent {Ext} (enhanced : Analyzer Ext)
    (entries : list (string * value)) (e : exn) (w : World Ext) :
  let description := entry "description" entries (VStr "") in
  let title := entry "title" entries (VStr "") in
  let author := entry "author" entries (VStr "") in
  truthy title = true ->
  truthy author = true ->
  fst (enhanced_generate_enhanced_book_note enhanced
         description title author (ext w)) = Raised e ->
  fst (app.handle_generate_note true enhanced (VDict entries) w)
  = fst (app.handle_generate_note false enhanced (VDict entries) w)
  /\ stdout (snd (app.handle_generate_note true enhanced (VDict entries) w))
     = (stdout w
          ++ [("Mood analysis failed, using fallback: "
                ++ exn_str e)%string])%list.
Proof.
  cbn zeta. intros T A R.
  rewrite !handle_generate_note_run, !generate_book_note_run, T, A.
  cbn [andb].
  destruct (enhanced_generate_enhanced_book_note enhanced
              (entry "description" entries (VStr ""))
              (entry "title" entries (VStr ""))
              (entry "author" entries (VStr "")) (ext w))
    as [[text|e'] x]; cbn [fst] in R; [discriminate R|].
  injection R as ->.
  match goal with
  | |- context [ai_service.description_based ?d ?w0] =>
      pose proof (description_based_pure d w0 w) as [P1 P2];
        destruct (ai_service.description_based d w0) as [r0 w0'];
        destruct (ai_service.description_based d w) as [r1 w1]
  end.
  cbn [fst snd] in P1, P2. subst r1 w0'.
  destruct r0; split; reflexivity.
Qed.

Lemma failing_analyzer_looks_absent_witness :
  truthy (entry "title"
            [("title", VStr "Dune"); ("author", VStr "Frank Herbert")]
            (VStr "")) = true
  /\ truthy (entry "author"
               [("title", VStr "Dune"); ("author", VStr "Frank Herbert")]
               (VStr "")) = true
  /\ fst (app.handle_generate_note true broken dune_request (start tt))
     = fst (app.handle_generate_note false broken dune_request (start tt))
  /\ stdout (snd (app.handle_generate_note true broken dune_request
                    (start tt)))
     = ["Mood analysis failed, using fallback: reviews unreachable"].
Proof.
  split; [reflexivity|]. split; [reflexivity|].
  exact (failing_analyzer_looks_absent broken
           [("title", VStr "Dune"); ("author", VStr "Frank Herbert")]
           (Exn "ConnectionError" "reviews unreachable") (start tt)
           eq_refl eq_refl eq_refl).
Defined.
